(** * Claude settings hooks: install, detect, remove

    A shallow embedding of [packages/server/src/setup.ts]: the catalog
    [HOOKS_CONFIG], the detector [hasOurHook], the filter
    [removeOurHookEntries], and the three exported operations
    [setupHooks], [areHooksConfigured] and [removeHooks], together with the
    properties the specification states about them. *)

From Stdlib Require Import List String Ascii ZArith Bool Arith Lia DecimalString.
From Stdlib Require DecimalPos DecimalN.
Import ListNotations.
Local Open Scope string_scope.
Local Open Scope list_scope.

(* ================================================================== *)
(** ** JSON values, as [JSON.parse] returns them *)

(** The code only ever looks at a number through its truthiness ([!x]), so
    numbers are carried as integers; [0] is the falsy one. An object is the
    list of its own properties in enumeration order. *)
Unset Elimination Schemes.
Inductive json : Type :=
| JNull
| JBool (b : bool)
| JNum (n : Z)
| JStr (s : string)
| JArr (items : list json)
| JObj (props : list (string * json)).
Set Elimination Schemes.

(** A plain JS object: property names with their values, in key order. *)
Definition obj : Type := list (string * json).

(** JS truthiness of a parsed JSON value. *)
Definition truthy (v : json) : bool :=
  match v with
  | JNull => false
  | JBool b => b
  | JNum n => negb (Z.eqb n 0)
  | JStr s => negb (String.eqb s "")
  | JArr _ => true
  | JObj _ => true
  end.

Module Props.
Section Props.
Variable V : Type.

(** [o[k]]: [None] stands for [undefined]. *)
Fixpoint get (k : string) (o : list (string * V)) : option V :=
  match o with
  | [] => None
  | (k', v) :: o' => if String.eqb k k' then Some v else get k o'
  end.

(** [k in o]. *)
Definition has (k : string) (o : list (string * V)) : bool :=
  match get k o with Some _ => true | None => false end.

(** [o[k] = v]: an existing property keeps its place, a new one goes
    last (the names assigned here are never array indices, which JS would
    enumerate first). *)
Fixpoint set (k : string) (v : V) (o : list (string * V)) : list (string * V) :=
  match o with
  | [] => [(k, v)]
  | (k', v') :: o' =>
      if String.eqb k k' then (k, v) :: o' else (k', v') :: set k v o'
  end.

(** [delete o[k]]. *)
Definition delete (k : string) (o : list (string * V)) : list (string * V) :=
  filter (fun p => negb (String.eqb k (fst p))) o.

(** The properties other than [k], in order: what a reader of the document
    sees of its other keys. *)
Definition others (k : string) (o : list (string * V)) : list (string * V) :=
  filter (fun p => negb (String.eqb k (fst p))) o.
End Props.
Arguments get {V} k o.
Arguments has {V} k o.
Arguments set {V} k v o.
Arguments delete {V} k o.
Arguments others {V} k o.
End Props.

(* ================================================================== *)
(** ** Strings *)

(** [s.includes(sub)]. *)
Fixpoint includes (s sub : string) : bool :=
  String.prefix sub s
  || match s with
     | EmptyString => false
     | String _ s' => includes s' sub
     end.

(* ================================================================== *)
(** ** The catalog (lines 11-76) *)

(** Modelled from the spec: [DEFAULT_PORT] is imported from
    [@claude-blocker/shared], which is not among the sources; section 4.1
    says the command embeds "the listener port used for detection", and
    detection looks for [localhost:8765/hook]. *)
Definition DEFAULT_PORT : N := 8765.

Definition dquote : string := String (ascii_of_nat 34) EmptyString.

Definition HOOK_COMMAND : string :=
  "curl -s -X POST http://localhost:"
  ++ NilEmpty.string_of_uint (N.to_uint DEFAULT_PORT)
  ++ "/hook -H 'Content-Type: application/json' -d "
  ++ dquote ++ "$(cat)" ++ dquote ++ " > /dev/null 2>&1 &".

Definition ourAction : json :=
  JObj [("type", JStr "command"); ("command", JStr HOOK_COMMAND)].

Definition plainGroup : json := JObj [("hooks", JArr [ourAction])].

Definition matcherGroup (m : string) : json :=
  JObj [("matcher", JStr m); ("hooks", JArr [ourAction])].

Definition HOOKS_CONFIG : list (string * list json) :=
  [ ("UserPromptSubmit", [plainGroup]);
    ("PreToolUse", [matcherGroup "*"]);
    ("Stop", [plainGroup]);
    ("SessionStart", [plainGroup]);
    ("SessionEnd", [plainGroup]);
    ("Notification", [matcherGroup "permission_prompt"]) ].

(** [Object.keys(HOOKS_CONFIG)]. *)
Definition eventNames : list string := map fst HOOKS_CONFIG.

Definition inCatalog (e : string) : bool := Props.has e HOOKS_CONFIG.

(* ================================================================== *)
(** ** Detection (lines 79-90, 181-195) *)

Definition SIGNATURE : string := "localhost:8765/hook".

(** The callback both [some] (line 84) and [every] (line 187) run on one
    element of a group's [hooks] array. An array is an object without a
    [command] property, so it fails the [typeof] test like a primitive does. *)
Definition carriesSignature (h : json) : bool :=
  match h with
  | JObj hook =>
      match Props.get "command" hook with
      | Some (JStr c) => includes c SIGNATURE
      | _ => false
      end
  | _ => false
  end.

(** [e.hooks] when it is an array; an entry that is an array itself has no
    [hooks] property. *)
Definition groupActions (entry : json) : option (list json) :=
  match entry with
  | JObj e =>
      match Props.get "hooks" e with
      | Some (JArr hs) => Some hs
      | _ => None
      end
  | _ => None
  end.

Definition hasOurHook (hooks : list json) : bool :=
  existsb (fun entry =>
             match groupActions entry with
             | Some hs => existsb carriesSignature hs
             | None => false
             end) hooks.

(** The predicate handed to [filter]: [true] keeps the entry. *)
Definition keepEntry (entry : json) : bool :=
  match groupActions entry with
  | Some hs => negb (forallb carriesSignature hs)
  | None => true
  end.

Definition removeOurHookEntries (hooks : list json) : list json :=
  filter keepEntry hooks.

(* ================================================================== *)
(** ** Merge: the body of [setupHooks] between load and save (lines 115-131) *)

(** A run either completes or dies on an uncaught [TypeError]. *)
Inductive outcome (A : Type) : Type :=
| Done (a : A)
| Throws.
Arguments Done {A} a.
Arguments Throws {A}.

Definition andThen {A B : Type} (r : outcome A) (k : A -> outcome B) : outcome B :=
  match r with
  | Done a => k a
  | Throws => Throws
  end.

(** One turn of the loop of line 121 on a [hooks] object. Arrays are
    truthy, so [!existing || !Array.isArray(existing)] is just "not an
    array". *)
Definition mergeEvent (hooks : obj) (ev : string * list json) : obj :=
  let '(hookName, ourEntries) := ev in
  match Props.get hookName hooks with
  | Some (JArr existing) =>
      if hasOurHook existing then hooks
      else Props.set hookName (JArr (existing ++ ourEntries)) hooks
  | _ => Props.set hookName (JArr ourEntries) hooks
  end.

(** Lines 116-118: a missing or falsy [hooks] becomes [{}]. *)
Definition initHooks (settings : obj) : obj :=
  match Props.get "hooks" settings with
  | Some h => if truthy h then settings else Props.set "hooks" (JObj []) settings
  | None => Props.set "hooks" (JObj []) settings
  end.

(** The document [setupHooks] hands to [JSON.stringify], read back.
    The module is an ES module, hence strict code: assigning a property on
    a truthy primitive [hooks] (true, a non-zero number, a non-empty string)
    throws. On an array the assignments succeed but create named
    properties, which [JSON.stringify] does not write. *)
Definition merge (settings : obj) : outcome obj :=
  let settings := initHooks settings in
  match Props.get "hooks" settings with
  | Some (JObj hooks) =>
      Done (Props.set "hooks" (JObj (fold_left mergeEvent HOOKS_CONFIG hooks)) settings)
  | Some (JArr _) => Done settings
  | _ => Throws
  end.

(* ================================================================== *)
(** ** Prune: the body of [removeHooks] between load and save (lines 209-225) *)

(** One turn of the loop of line 211. *)
Definition pruneEvent (hooks : obj) (hookName : string) : obj :=
  match Props.get hookName hooks with
  | Some (JArr existing) =>
      let filtered := removeOurHookEntries existing in
      if Nat.eqb (List.length filtered) 0 then Props.delete hookName hooks
      else Props.set hookName (JArr filtered) hooks
  | _ => hooks
  end.

(** [Object.keys(settings.hooks).length === 0] for a truthy [hooks]: a
    boolean or a number has no own keys, a string has one per character, an
    array one per element. *)
Definition noKeys (hooks : json) : bool :=
  match hooks with
  | JObj ps => Nat.eqb (List.length ps) 0
  | JArr xs => Nat.eqb (List.length xs) 0
  | JStr s => Nat.eqb (String.length s) 0
  | _ => true
  end.

(** Reading an event name off a truthy non-object [hooks] gives
    [undefined], so the loop only acts on an object. *)
Definition pruneSection (hooks : json) : json :=
  match hooks with
  | JObj ps => JObj (fold_left pruneEvent eventNames ps)
  | other => other
  end.

(** Lines 209-225. With a missing or falsy [hooks] nothing is written and
    the document stays as it is. *)
Definition prune (settings : obj) : obj :=
  match Props.get "hooks" settings with
  | Some h =>
      if truthy h then
        let h' := pruneSection h in
        if noKeys h' then Props.delete "hooks" settings
        else Props.set "hooks" h' settings
      else settings
  | None => settings
  end.

(* ================================================================== *)
(** ** The settings file and the exported operations *)

(** What is at [~/.claude/settings.json], seen through [existsSync],
    [readFileSync] and [JSON.parse]. *)
Inductive file : Type :=
| Absent
| Unparsable
| Parsed (v : json).

(** [setupHooks] (lines 92-134): the file it leaves behind, or [Throws] when
    the run dies before [writeFileSync]. A [null] document throws on
    [settings.hooks]; a primitive one on [settings.hooks = {}]; on an array
    the named property is not serialised. The file is given by the value
    written: [JSON.stringify] turns a number beyond the double range into
    [null], and such numbers are not among the integers carried here. *)
Definition setupHooks (f : file) : outcome file :=
  let settings := match f with Parsed v => v | _ => JObj [] end in
  match settings with
  | JObj o => andThen (merge o) (fun o' => Done (Parsed (JObj o')))
  | JArr xs => Done (Parsed (JArr xs))
  | _ => Throws
  end.

(** [areHooksConfigured] (lines 158-178). [in] on a primitive [hooks]
    throws and the [catch] answers [false]; an array has none of the event
    names. A document that is not an object has no truthy [hooks]: reading
    it off [null] throws, off anything else gives [undefined]. *)
Definition areHooksConfigured (f : file) : bool :=
  match f with
  | Absent => false
  | Unparsable => false
  | Parsed (JObj settings) =>
      match Props.get "hooks" settings with
      | Some h =>
          if truthy h then
            match h with
            | JObj hooks => existsb (fun hookName => Props.has hookName hooks) eventNames
            | _ => false
            end
          else false
      | None => false
      end
  | Parsed _ => false
  end.

(** [removeHooks] (lines 197-235): everything after the existence test runs
    inside [try], and only an object can have a truthy [hooks]. As for
    [setupHooks], the file is given by the value written. *)
Definition removeHooks (f : file) : file :=
  match f with
  | Parsed (JObj settings) => Parsed (JObj (prune settings))
  | other => other
  end.

(* ================================================================== *)
(** ** What the two loops do to one event *)

(** The array the merge loop leaves at an event, from what was there. *)
Definition mergedEntry (old : option json) (ourEntries : list json) : list json :=
  match old with
  | Some (JArr existing) =>
      if hasOurHook existing then existing else existing ++ ourEntries
  | _ => ourEntries
  end.

(** What the prune loop leaves at an event, from what was there. *)
Definition prunedEntry (old : option json) : option json :=
  match old with
  | Some (JArr existing) =>
      if Nat.eqb (List.length (removeOurHookEntries existing)) 0 then None
      else Some (JArr (removeOurHookEntries existing))
  | other => other
  end.

Arguments mergeEvent : simpl never.
Arguments pruneEvent : simpl never.

(* ================================================================== *)
(** ** Reading a document *)

(** [d.hooks[e]] for a [hooks] that is an object; nothing otherwise. *)
Definition eventValue (d : obj) (e : string) : option json :=
  match Props.get "hooks" d with
  | Some (JObj hooks) => Props.get e hooks
  | _ => None
  end.

(** The sequence of groups at event [e], when there is an array there. *)
Definition eventGroups (d : obj) (e : string) : option (list json) :=
  match eventValue d e with
  | Some (JArr gs) => Some gs
  | _ => None
  end.

(** The [hooks] section is missing, falsy, or an object: the shapes
    [ClaudeSettings] allows, plus the falsy values line 116 replaces. *)
Definition hooksIsMapping (d : obj) : bool :=
  match Props.get "hooks" d with
  | None => true
  | Some (JObj _) => true
  | Some v => negb (truthy v)
  end.

(* ================================================================== *)
(** ** Ownership as the specification words it *)

(** Section 4.2, [isOurs(group)]: [group.hooks] is a non-empty sequence and
    every element is an object with a string [command] containing the
    signature. *)
Definition isOurs (group : json) : bool :=
  match groupActions group with
  | Some (h :: hs) => forallb carriesSignature (h :: hs)
  | _ => false
  end.

(** The groups of a sequence that are not ours, in order. *)
Definition nonOurs (groups : list json) : list json :=
  filter (fun g => negb (isOurs g)) groups.

(** A group whose [hooks] is the empty array. *)
Definition hasNoActions (group : json) : bool :=
  match groupActions group with
  | Some [] => true
  | _ => false
  end.

(** No group at event [e] of [d] has an empty [hooks] array. *)
Definition noEmptyGroupsAt (d : obj) (e : string) : bool :=
  match eventGroups d e with
  | Some groups => negb (existsb hasNoActions groups)
  | None => true
  end.

Definition oursCount (d : obj) (e : string) : nat :=
  match eventGroups d e with
  | Some groups => List.length (filter isOurs groups)
  | None => 0
  end.

(* ================================================================== *)
(** ** Sample documents *)

Definition userGroup : json :=
  JObj [("matcher", JStr "Bash");
        ("hooks", JArr [JObj [("type", JStr "command");
                              ("command", JStr "echo done")]])].

Definition foreignAction : json :=
  JObj [("type", JStr "command"); ("command", JStr "notify-send stopped")].

Definition mixedGroup : json := JObj [("hooks", JArr [foreignAction; ourAction])].

Definition emptyGroup : json := JObj [("matcher", JStr "Bash"); ("hooks", JArr [])].

Definition themedStop (groups : list json) : obj :=
  [("theme", JStr "dark"); ("hooks", JObj [("Stop", JArr groups)])].

Definition themedStopMerged : obj :=
  match merge (themedStop [userGroup]) with
  | Done d1 => d1
  | Throws => []
  end.

Definition onlyOurs : obj :=
  [("model", JStr "opus"); ("hooks", JObj [("SessionStart", JArr [plainGroup])])].

Definition oursElsewhere : obj :=
  [("hooks", JObj [("PostToolUse", JArr [plainGroup])])].

(* ================================================================== *)
(** ** Two properties as the specification states them *)

(** The round trip as the specification states it, at document [d]: after
    merge and prune every event holds its original non-ours groups, and an
    event that had none is absent. *)
Definition roundTripStated (d : obj) : Prop :=
  forall d1 e groups,
    merge d = Done d1 ->
    eventGroups d e = Some groups ->
    nonOurs match eventGroups (prune d1) e with Some kept => kept | None => [] end
    = nonOurs groups
    /\ (nonOurs groups = [] -> eventValue (prune d1) e = None).

(** The document has an array at catalog event [e] that contains the
    event's canonical group. *)
Definition containsCanonical (d : obj) (e : string) : Prop :=
  exists canon groups,
    Props.get e HOOKS_CONFIG = Some canon
    /\ eventGroups d e = Some groups
    /\ incl canon groups.

(** No duplication as the specification states it, at [d] and [e]. *)
Definition noDuplicationStated (d : obj) (e : string) : Prop :=
  containsCanonical d e ->
  forall d2, andThen (merge d) merge = Done d2 -> oursCount d2 e = 1.

(* ================================================================== *)
(** ** Documents that setup followed by removal gives back *)

(** At event [e] the [hooks] object has nothing, or a non-empty array in
    which [removeOurHookEntries] would keep every group. *)
Definition cleanEvent (hooks : obj) (e : string) : bool :=
  match Props.get e hooks with
  | None => true
  | Some (JArr groups) =>
      negb (Nat.eqb (List.length groups) 0) && forallb keepEntry groups
  | Some _ => false
  end.

(** No [hooks] key at all, or a non-empty [hooks] object clean at every
    catalog event. *)
Definition restorable (d : obj) : bool :=
  match Props.get "hooks" d with
  | None => true
  | Some (JObj hooks) =>
      negb (Nat.eqb (List.length hooks) 0) && forallb (cleanEvent hooks) eventNames
  | Some _ => false
  end.

(** The files on which [setupHooks] installs the catalog: no file, an
    unreadable one, or a document whose [hooks] is missing, falsy or an
    object. *)
Definition installable (f : file) : bool :=
  match f with
  | Absent => true
  | Unparsable => true
  | Parsed (JObj d) => hooksIsMapping d
  | Parsed _ => false
  end.

(** A truthy boolean, number or string: a value on which a property
    assignment throws in strict code. *)
Definition truthyPrimitive (v : json) : bool :=
  match v with
  | JObj _ => false
  | JArr _ => false
  | other => truthy other
  end.

(* ================================================================== *)
(** ** The entry point ([packages/server/src/bin.ts])

    Strings are taken as the UTF-8 bytes of the JS string. *)

(** [args.includes(flag)]. *)
Definition argsInclude (flag : string) (args : list string) : bool :=
  existsb (String.eqb flag) args.

(** [args[args.indexOf(flag) + 1]] when [flag] occurs: the outer [None] is
    [indexOf] answering [-1], the inner one an index past the end. *)
Fixpoint afterFirst (flag : string) (args : list string) : option (option string) :=
  match args with
  | [] => None
  | a :: rest =>
      if String.eqb a flag then Some (hd_error rest) else afterFirst flag rest
  end.

(** The one-byte white space and line terminators: TAB, LF, VT, FF, CR,
    SP. *)
Definition asciiWhite (c : ascii) : bool :=
  let n := N_of_ascii c in
  ((9 <=? n) && (n <=? 13) || (n =? 32))%N.

(** U+00A0. *)
Definition white2 (c1 c2 : ascii) : bool :=
  ((N_of_ascii c1 =? 194) && (N_of_ascii c2 =? 160))%N.

(** U+1680, U+2000..U+200A, U+2028, U+2029, U+202F, U+205F, U+3000,
    U+FEFF. *)
Definition white3 (c1 c2 c3 : ascii) : bool :=
  let a := N_of_ascii c1 in
  let b := N_of_ascii c2 in
  let c := N_of_ascii c3 in
  ((a =? 225) && (b =? 154) && (c =? 128)
   || (a =? 226) && (b =? 128)
      && ((128 <=? c) && (c <=? 138) || (c =? 168) || (c =? 169) || (c =? 175))
   || (a =? 226) && (b =? 129) && (c =? 159)
   || (a =? 227) && (b =? 128) && (c =? 128)
   || (a =? 239) && (b =? 187) && (c =? 191))%N.

(** The string without its leading white space, as [parseInt] and [trim]
    skip it. *)
Fixpoint trimStart (s : string) : string :=
  match s with
  | EmptyString => s
  | String c1 r1 =>
      if asciiWhite c1 then trimStart r1
      else
        match r1 with
        | EmptyString => s
        | String c2 r2 =>
            if white2 c1 c2 then trimStart r2
            else
              match r2 with
              | EmptyString => s
              | String c3 r3 => if white3 c1 c2 c3 then trimStart r3 else s
              end
        end
  end.

Definition digitOf (c : ascii) : option (Decimal.uint -> Decimal.uint) :=
  match N_of_ascii c with
  | 48%N => Some Decimal.D0
  | 49%N => Some Decimal.D1
  | 50%N => Some Decimal.D2
  | 51%N => Some Decimal.D3
  | 52%N => Some Decimal.D4
  | 53%N => Some Decimal.D5
  | 54%N => Some Decimal.D6
  | 55%N => Some Decimal.D7
  | 56%N => Some Decimal.D8
  | 57%N => Some Decimal.D9
  | _ => None
  end.

(** The longest prefix of decimal digits. *)
Fixpoint leadingDigits (s : string) : Decimal.uint :=
  match s with
  | EmptyString => Decimal.Nil
  | String c rest =>
      match digitOf c with
      | Some digit => digit (leadingDigits rest)
      | None => Decimal.Nil
      end
  end.

(** [parseInt(s, 10)]; [None] is [NaN]. The value is exact, where a JS
    number rounds beyond 2^53: the comparisons of line 99 come out the
    same. *)
Definition parseInt10 (s : string) : option Z :=
  let s := trimStart s in
  let '(negative, body) :=
    match s with
    | String c rest =>
        if (N_of_ascii c =? 45)%N then (true, rest)
        else if (N_of_ascii c =? 43)%N then (false, rest)
        else (false, s)
    | EmptyString => (false, s)
    end in
  match leadingDigits body with
  | Decimal.Nil => None
  | digits =>
      let value := Z.of_N (N.of_uint digits) in
      Some (if negative then (- value)%Z else value)
  end.

Inductive portChoice : Type :=
| PortOk (port : Z)
| PortInvalid.

(** Lines 94-105. A missing or empty value after [--port] is falsy and
    leaves the default. *)
Definition choosePort (args : list string) : portChoice :=
  match afterFirst "--port" args with
  | Some (Some v) =>
      if String.eqb v "" then PortOk (Z.of_N DEFAULT_PORT)
      else
        match parseInt10 v with
        | Some parsed =>
            if ((0 <? parsed) && (parsed <? 65536))%Z then PortOk parsed
            else PortInvalid
        | None => PortInvalid
        end
  | _ => PortOk (Z.of_N DEFAULT_PORT)
  end.

Definition asciiIs (lower : N) (c : ascii) : bool :=
  ((N_of_ascii c =? lower) || (N_of_ascii c =? lower - 32))%N.

(** Line 116, [normalized === "" || normalized === "y" || normalized ===
    "yes"] with [normalized = answer.trim().toLowerCase()]: only the ASCII
    capitals lower to [y], [e] and [s]. *)
Definition acceptsSetup (answer : string) : bool :=
  let blank r := String.eqb (trimStart r) "" in
  match trimStart answer with
  | EmptyString => true
  | String c1 r1 =>
      asciiIs 121 c1
      && (blank r1
          || match r1 with
             | String c2 (String c3 r3) => asciiIs 101 c2 && asciiIs 115 c3 && blank r3
             | _ => false
             end)
  end.

(** What a run of [main] does, in order. The functions of
    [opencode-setup.ts] and [server.ts] are not among the sources: a call
    to one is recorded and taken to return. *)
Inductive step : Type :=
| PrintHelp
| SetupClaude
| RemoveClaude
| SetupOpenCode
| RemoveOpenCode
| InvalidPort
| Ask
| StartServer (port : Z)
| Exit (code : Z)
| Crash.

(** [main] (lines 53-126) on the arguments, the settings file, the answer
    of [isOpenCodePluginConfigured] and the line typed at the prompt: the
    steps taken and the settings file left. A [setupHooks] that throws
    rejects [main], which nothing catches. *)
Definition main (args : list string) (f : file) (openCodeConfigured : bool)
    (answer : string) : list step * file :=
  if argsInclude "--help" args || argsInclude "-h" args then
    ([PrintHelp; Exit 0%Z], f)
  else if argsInclude "--setup" args then
    match setupHooks f with
    | Done f' => ([SetupClaude; SetupOpenCode; Exit 0%Z], f')
    | Throws => ([SetupClaude; Crash], f)
    end
  else if argsInclude "--remove" args then
    ([RemoveClaude; RemoveOpenCode; Exit 0%Z], removeHooks f)
  else if argsInclude "--setup-claude" args then
    match setupHooks f with
    | Done f' => ([SetupClaude; Exit 0%Z], f')
    | Throws => ([SetupClaude; Crash], f)
    end
  else if argsInclude "--setup-opencode" args then
    ([SetupOpenCode; Exit 0%Z], f)
  else if argsInclude "--remove-claude" args then
    ([RemoveClaude; Exit 0%Z], removeHooks f)
  else if argsInclude "--remove-opencode" args then
    ([RemoveOpenCode; Exit 0%Z], f)
  else
    match choosePort args with
    | PortInvalid => ([InvalidPort; Exit 1%Z], f)
    | PortOk port =>
        if negb (areHooksConfigured f) && negb openCodeConfigured then
          if acceptsSetup answer then
            match setupHooks f with
            | Done f' => ([Ask; SetupClaude; SetupOpenCode; StartServer port], f')
            | Throws => ([Ask; SetupClaude; Crash], f)
            end
          else ([Ask; StartServer port], f)
        else ([StartServer port], f)
    end.

(** One of the six command flags, or a help flag, is among the
    arguments. *)
Definition hasCommand (args : list string) : bool :=
  existsb (fun flag => argsInclude flag args)
    ["--help"; "-h"; "--setup"; "--remove"; "--setup-claude";
     "--setup-opencode"; "--remove-claude"; "--remove-opencode"].

(** [String(n)] for a non-negative integer. *)
Definition decimal (n : N) : string := NilEmpty.string_of_uint (N.to_uint n).

(** The string is empty or starts with something other than a decimal
    digit. *)
Definition noDigitHead (s : string) : bool :=
  match s with
  | EmptyString => true
  | String c _ => match digitOf c with Some _ => false | None => true end
  end.

(* ================================================================== *)
(** ** The merge policy as the specification states it *)

(** At document [d] and catalog event [e]: merge gives a result, and the
    result has at [e] the canonical sequence, the existing array followed
    by it, or the existing array, by the three cases. *)
Definition mergePolicyStated (d : obj) (e : string) : Prop :=
  forall ourEntries,
    Props.get e HOOKS_CONFIG = Some ourEntries ->
    exists d1,
      merge d = Done d1
      /\ eventGroups d1 e
         = Some match eventGroups d e with
                | None => ourEntries
                | Some existing =>
                    if hasOurHook existing then existing
                    else existing ++ ourEntries
                end.

(** A document whose [hooks] is [true], and one whose [hooks] is an
    array. *)
Definition hooksTrue : obj := [("hooks", JBool true)].

Definition hooksArray : obj := [("hooks", JArr [JNum 1; JStr "x"])].

(** A user's group without actions at [Stop], beside our own group at
    [SessionStart]. *)
Definition emptyBesideOurs : obj :=
  [("model", JStr "opus");
   ("hooks", JObj [("Stop", JArr [emptyGroup]);
                   ("SessionStart", JArr [plainGroup])])].

(* ================================================================== *)
(** ** Facts about strings *)

Lemma prefix_app (p s : string) :
  String.prefix p s = true <-> exists rest, s = (p ++ rest)%string.
Proof.
  revert s. induction p as [|a p IH]; intros s.
  - split; [intros _; exists s; reflexivity|intros _; destruct s; reflexivity].
  - destruct s as [|b s]; simpl.
    + split; [discriminate|intros [rest H]; discriminate].
    + destruct (ascii_dec a b) as [->|Hab].
      * rewrite IH. split; intros [rest H]; exists rest; congruence.
      * split; [discriminate|]. intros [rest H]. congruence.
Qed.

Lemma includes_unfold (s sub : string) :
  includes s sub
  = String.prefix sub s
    || match s with
       | EmptyString => false
       | String _ s' => includes s' sub
       end.
Proof. destruct s; reflexivity. Qed.

(** [includes] is substring containment. *)
Lemma includes_spec (s sub : string) :
  includes s sub = true <-> exists before after, s = (before ++ sub ++ after)%string.
Proof.
  split.
  - induction s as [|c s IH]; rewrite includes_unfold, orb_true_iff.
    + intros [H|H]; [|discriminate].
      apply prefix_app in H. destruct H as [rest H]. exists EmptyString, rest. exact H.
    + intros [H|H].
      * apply prefix_app in H. destruct H as [rest H].
        exists EmptyString, rest. exact H.
      * destruct (IH H) as (before & after & ->).
        exists (String c before), after. reflexivity.
  - intros (before & after & ->).
    induction before as [|c before IH]; simpl append; rewrite includes_unfold.
    + assert (P : String.prefix sub (sub ++ after)%string = true)
        by (apply prefix_app; eauto).
      now rewrite P.
    + cbv iota. rewrite IH. apply orb_true_r.
Qed.

(* ================================================================== *)
(** ** Facts about property lists *)

Module PropsFacts.
Section PropsFacts.
Variable V : Type.
Implicit Types (k : string) (v : V) (o : list (string * V)).

Lemma get_set_same k v o : Props.get k (Props.set k v o) = Some v.
Proof.
  induction o as [|[k' v'] o IH]; simpl.
  - now rewrite String.eqb_refl.
  - destruct (String.eqb k k') eqn:E; simpl.
    + now rewrite String.eqb_refl.
    + now rewrite E.
Qed.

Lemma get_set_other k k' v o :
  k <> k' -> Props.get k' (Props.set k v o) = Props.get k' o.
Proof.
  intros Hne. induction o as [|[k0 v0] o IH]; simpl.
  - destruct (String.eqb_spec k' k); congruence.
  - destruct (String.eqb_spec k k0) as [->|Hk]; simpl.
    + destruct (String.eqb_spec k' k0); congruence.
    + now rewrite IH.
Qed.

Lemma set_get_id k v o : Props.get k o = Some v -> Props.set k v o = o.
Proof.
  induction o as [|[k' v'] o IH]; simpl; [discriminate|].
  destruct (String.eqb_spec k k') as [->|Hk]; intros H.
  - congruence.
  - now rewrite IH.
Qed.

Lemma get_delete_same k o : Props.get k (Props.delete k o) = None.
Proof.
  unfold Props.delete.
  induction o as [|[k' v'] o IH]; simpl; [reflexivity|].
  destruct (String.eqb k k') eqn:E; simpl; [assumption|].
  now rewrite E.
Qed.

Lemma get_delete_other k k' o :
  k <> k' -> Props.get k' (Props.delete k o) = Props.get k' o.
Proof.
  intros Hne. unfold Props.delete.
  induction o as [|[k0 v0] o IH]; simpl; [reflexivity|].
  destruct (String.eqb_spec k k0) as [->|Hk]; simpl.
  - destruct (String.eqb_spec k' k0); congruence.
  - now rewrite IH.
Qed.

Lemma delete_absent k o : Props.get k o = None -> Props.delete k o = o.
Proof.
  unfold Props.delete.
  induction o as [|[k' v'] o IH]; simpl; [reflexivity|].
  destruct (String.eqb k k'); simpl; [discriminate|].
  intros H. now rewrite IH.
Qed.

Lemma others_set k v o : Props.others k (Props.set k v o) = Props.others k o.
Proof.
  unfold Props.others.
  induction o as [|[k' v'] o IH]; simpl.
  - now rewrite String.eqb_refl.
  - destruct (String.eqb k k') eqn:E; simpl.
    + now rewrite String.eqb_refl.
    + now rewrite E, IH.
Qed.

Lemma others_delete k o : Props.others k (Props.delete k o) = Props.others k o.
Proof.
  unfold Props.others, Props.delete.
  induction o as [|[k' v'] o IH]; simpl; [reflexivity|].
  destruct (String.eqb k k') eqn:E; simpl; [assumption|].
  now rewrite E, IH.
Qed.

Lemma has_get k o : Props.has k o = true <-> Props.get k o <> None.
Proof.
  unfold Props.has. destruct (Props.get k o); split; congruence.
Qed.

Lemma get_empty k o : List.length o = 0 -> Props.get k o = None.
Proof. destruct o; [reflexivity|discriminate]. Qed.

Lemma get_in_keys k o : Props.get k o <> None -> In k (map fst o).
Proof.
  induction o as [|[k' v'] o IH]; simpl; [congruence|].
  destruct (String.eqb_spec k k') as [->|Hk]; auto.
Qed.

Lemma in_keys_get k o : In k (map fst o) -> Props.get k o <> None.
Proof.
  induction o as [|[k' v'] o IH]; simpl; [tauto|].
  destruct (String.eqb_spec k k') as [->|Hk]; [congruence|].
  intros [H|H]; [congruence|auto].
Qed.
End PropsFacts.
Arguments get_set_same {V} k v o.
Arguments get_set_other {V} k k' v o.
Arguments set_get_id {V} k v o.
Arguments get_delete_same {V} k o.
Arguments get_delete_other {V} k k' o.
Arguments delete_absent {V} k o.
Arguments others_set {V} k v o.
Arguments others_delete {V} k o.
Arguments has_get {V} k o.
Arguments get_empty {V} k o.
Arguments get_in_keys {V} k o.
Arguments in_keys_get {V} k o.
End PropsFacts.

Lemma fold_left_fixed (A B : Type) (f : A -> B -> A) (l : list B) (a : A) :
  (forall b, In b l -> f a b = a) -> fold_left f l a = a.
Proof.
  induction l as [|b l IH]; simpl; intros H; [reflexivity|].
  rewrite (H b) by auto. apply IH. auto.
Qed.

Lemma get_mergeEvent_same hooks name ours :
  Props.get name (mergeEvent hooks (name, ours))
  = Some (JArr (mergedEntry (Props.get name hooks) ours)).
Proof.
  unfold mergeEvent, mergedEntry.
  destruct (Props.get name hooks) as [[| | | |existing|]|] eqn:E;
    try apply PropsFacts.get_set_same.
  destruct (hasOurHook existing); [assumption|apply PropsFacts.get_set_same].
Qed.

Lemma get_mergeEvent_other hooks name ours k :
  name <> k -> Props.get k (mergeEvent hooks (name, ours)) = Props.get k hooks.
Proof.
  intros Hne. unfold mergeEvent.
  destruct (Props.get name hooks) as [[| | | |existing|]|];
    try (now apply PropsFacts.get_set_other).
  destruct (hasOurHook existing); [reflexivity|now apply PropsFacts.get_set_other].
Qed.

Lemma get_fold_merge_out cfg hooks k :
  Props.get k cfg = None ->
  Props.get k (fold_left mergeEvent cfg hooks) = Props.get k hooks.
Proof.
  revert hooks. induction cfg as [|[name ours] cfg IH]; simpl; intros hooks H;
    [reflexivity|].
  destruct (String.eqb_spec k name) as [->|Hk]; [discriminate|].
  rewrite IH by assumption. apply get_mergeEvent_other. congruence.
Qed.

Lemma get_fold_merge_in cfg hooks k ours :
  NoDup (map fst cfg) ->
  Props.get k cfg = Some ours ->
  Props.get k (fold_left mergeEvent cfg hooks)
  = Some (JArr (mergedEntry (Props.get k hooks) ours)).
Proof.
  revert hooks. induction cfg as [|[name ours'] cfg IH]; simpl; intros hooks Hnd H;
    [discriminate|].
  inversion Hnd as [|? ? Hnotin Hnd']; subst.
  destruct (String.eqb_spec k name) as [->|Hk].
  - injection H as ->.
    rewrite get_fold_merge_out.
    + apply get_mergeEvent_same.
    + destruct (Props.get name cfg) eqn:E; [|reflexivity].
      exfalso. apply Hnotin. apply PropsFacts.get_in_keys. congruence.
  - rewrite IH by assumption.
    rewrite get_mergeEvent_other by congruence. reflexivity.
Qed.

Lemma get_pruneEvent_same hooks name :
  Props.get name (pruneEvent hooks name) = prunedEntry (Props.get name hooks).
Proof.
  unfold pruneEvent, prunedEntry.
  destruct (Props.get name hooks) as [[| | | |existing|]|] eqn:E; try assumption.
  destruct (Nat.eqb _ 0).
  - apply PropsFacts.get_delete_same.
  - apply PropsFacts.get_set_same.
Qed.

Lemma get_pruneEvent_other hooks name k :
  name <> k -> Props.get k (pruneEvent hooks name) = Props.get k hooks.
Proof.
  intros Hne. unfold pruneEvent.
  destruct (Props.get name hooks) as [[| | | |existing|]|]; try reflexivity.
  destruct (Nat.eqb _ 0).
  - now apply PropsFacts.get_delete_other.
  - now apply PropsFacts.get_set_other.
Qed.

Lemma get_fold_prune_out names hooks k :
  ~ In k names ->
  Props.get k (fold_left pruneEvent names hooks) = Props.get k hooks.
Proof.
  revert hooks. induction names as [|name names IH]; simpl; intros hooks H;
    [reflexivity|].
  rewrite IH by tauto. apply get_pruneEvent_other. intros ->. tauto.
Qed.

Lemma get_fold_prune_in names hooks k :
  NoDup names ->
  In k names ->
  Props.get k (fold_left pruneEvent names hooks) = prunedEntry (Props.get k hooks).
Proof.
  revert hooks. induction names as [|name names IH]; simpl; intros hooks Hnd H;
    [contradiction|].
  inversion Hnd as [|? ? Hnotin Hnd']; subst.
  destruct (String.eqb_spec k name) as [->|Hk].
  - rewrite get_fold_prune_out by assumption. apply get_pruneEvent_same.
  - destruct H as [H|H]; [congruence|].
    rewrite IH by assumption.
    rewrite get_pruneEvent_other by congruence. reflexivity.
Qed.

(** The catalog, evaluated. *)
Lemma eventNames_NoDup : NoDup eventNames.
Proof.
  unfold eventNames. simpl.
  repeat (constructor; [simpl; intuition discriminate|]). constructor.
Qed.

Lemma catalog_detected name ours :
  Props.get name HOOKS_CONFIG = Some ours -> hasOurHook ours = true.
Proof.
  unfold HOOKS_CONFIG. simpl.
  repeat (destruct (String.eqb name _);
          [intros H; injection H as <-; vm_compute; reflexivity|]).
  discriminate.
Qed.

Lemma catalog_removed name ours :
  Props.get name HOOKS_CONFIG = Some ours -> removeOurHookEntries ours = [].
Proof.
  unfold HOOKS_CONFIG. simpl.
  repeat (destruct (String.eqb name _);
          [intros H; injection H as <-; vm_compute; reflexivity|]).
  discriminate.
Qed.

Lemma inCatalog_In e : inCatalog e = true <-> In e eventNames.
Proof.
  unfold inCatalog, eventNames. rewrite PropsFacts.has_get. split.
  - apply PropsFacts.get_in_keys.
  - apply PropsFacts.in_keys_get.
Qed.

Lemma inCatalog_get e :
  inCatalog e = true -> exists ours, Props.get e HOOKS_CONFIG = Some ours.
Proof.
  unfold inCatalog, Props.has.
  destruct (Props.get e HOOKS_CONFIG) as [ours|]; [eauto|discriminate].
Qed.

Lemma in_get_NoDup (V : Type) (cfg : list (string * V)) k v :
  NoDup (map fst cfg) -> In (k, v) cfg -> Props.get k cfg = Some v.
Proof.
  induction cfg as [|[k' v'] cfg IH]; simpl; intros Hnd H; [contradiction|].
  inversion Hnd as [|? ? Hnotin Hnd']; subst.
  destruct H as [H|H].
  - injection H as -> ->. now rewrite String.eqb_refl.
  - destruct (String.eqb_spec k k') as [->|Hk]; [|auto].
    exfalso. apply Hnotin. change k' with (fst (k', v)). now apply in_map.
Qed.

Lemma hasOurHook_app xs ys :
  hasOurHook (xs ++ ys) = hasOurHook xs || hasOurHook ys.
Proof. apply existsb_app. Qed.

Lemma removeOurHookEntries_app xs ys :
  removeOurHookEntries (xs ++ ys)
  = removeOurHookEntries xs ++ removeOurHookEntries ys.
Proof. apply filter_app. Qed.

Lemma removeOurHookEntries_idem xs :
  removeOurHookEntries (removeOurHookEntries xs) = removeOurHookEntries xs.
Proof.
  unfold removeOurHookEntries.
  induction xs as [|x xs IH]; simpl; [reflexivity|].
  destruct (keepEntry x) eqn:E; simpl; [rewrite E, IH|]; auto.
Qed.

Lemma mergedEntry_detected old ours :
  hasOurHook ours = true -> hasOurHook (mergedEntry old ours) = true.
Proof.
  intros H. unfold mergedEntry.
  destruct old as [[| | | |existing|]|]; try assumption.
  destruct (hasOurHook existing) eqn:E; [assumption|].
  rewrite hasOurHook_app, H. apply orb_true_r.
Qed.

(** Once every catalog event holds an array with our hook in it, the merge
    loop changes nothing. *)
Lemma fold_merge_settled hooks :
  (forall name ours, Props.get name HOOKS_CONFIG = Some ours ->
     exists arr, Props.get name hooks = Some (JArr arr) /\ hasOurHook arr = true) ->
  fold_left mergeEvent HOOKS_CONFIG hooks = hooks.
Proof.
  intros H. apply fold_left_fixed. intros [name ours] Hin.
  destruct (H name ours) as (arr & Hget & Hhas).
  - apply in_get_NoDup; [exact eventNames_NoDup|assumption].
  - unfold mergeEvent. now rewrite Hget, Hhas.
Qed.

Lemma fold_merge_twice hooks :
  fold_left mergeEvent HOOKS_CONFIG (fold_left mergeEvent HOOKS_CONFIG hooks)
  = fold_left mergeEvent HOOKS_CONFIG hooks.
Proof.
  apply fold_merge_settled. intros name ours Hget.
  eexists. split.
  - apply get_fold_merge_in; [exact eventNames_NoDup|eassumption].
  - apply mergedEntry_detected. eapply catalog_detected; eassumption.
Qed.

(** Once no catalog event holds an array the filter would shorten, the
    prune loop changes nothing. *)
Lemma fold_prune_twice hooks :
  fold_left pruneEvent eventNames (fold_left pruneEvent eventNames hooks)
  = fold_left pruneEvent eventNames hooks.
Proof.
  apply fold_left_fixed. intros name Hin.
  unfold pruneEvent at 1.
  rewrite (get_fold_prune_in eventNames hooks name eventNames_NoDup Hin).
  unfold prunedEntry.
  destruct (Props.get name hooks) as [[| | | |existing|]|] eqn:E; try reflexivity.
  destruct (Nat.eqb (List.length (removeOurHookEntries existing)) 0) eqn:El;
    [reflexivity|].
  rewrite removeOurHookEntries_idem, El.
  apply PropsFacts.set_get_id.
  rewrite (get_fold_prune_in eventNames hooks name eventNames_NoDup Hin), E.
  unfold prunedEntry. now rewrite El.
Qed.

(** The two ways [merge] completes. *)
Lemma merge_done d d1 :
  merge d = Done d1 ->
  (exists hooks0,
      Props.get "hooks" (initHooks d) = Some (JObj hooks0)
      /\ d1 = Props.set "hooks"
                (JObj (fold_left mergeEvent HOOKS_CONFIG hooks0)) (initHooks d)
      /\ (forall e, eventValue d e = Props.get e hooks0)
      /\ hooksIsMapping d = true)
  \/ (exists xs, Props.get "hooks" d = Some (JArr xs) /\ d1 = d).
Proof.
  unfold merge, initHooks, eventValue, hooksIsMapping.
  destruct (Props.get "hooks" d) as [h|] eqn:E.
  - destruct (truthy h) eqn:T.
    + rewrite E. destruct h; try discriminate.
      * intros H. injection H as <-. right. eauto.
      * intros H. injection H as <-. left. eexists. repeat split.
    + rewrite PropsFacts.get_set_same. intros H. injection H as <-.
      left. exists []. repeat split.
      * intros e. destruct h; try reflexivity; discriminate.
      * destruct h; try reflexivity; try discriminate; now rewrite T.
  - rewrite PropsFacts.get_set_same. intros H. injection H as <-.
    left. exists []. repeat split.
Qed.

Lemma merge_total d :
  hooksIsMapping d = true -> exists d1, merge d = Done d1.
Proof.
  unfold hooksIsMapping, merge, initHooks.
  destruct (Props.get "hooks" d) as [h|] eqn:E.
  - destruct h; simpl; intros T; try discriminate;
      try (rewrite PropsFacts.get_set_same; eauto).
    + apply negb_true_iff in T. rewrite T.
      rewrite PropsFacts.get_set_same; eauto.
    + apply negb_true_iff in T. rewrite T.
      rewrite PropsFacts.get_set_same; eauto.
    + apply negb_true_iff in T. rewrite T.
      rewrite PropsFacts.get_set_same; eauto.
    + rewrite E. eauto.
  - intros _. rewrite PropsFacts.get_set_same. eauto.
Qed.

Lemma truthy_pruneSection h : truthy (pruneSection h) = truthy h.
Proof. destruct h; reflexivity. Qed.

Lemma pruneSection_twice h : pruneSection (pruneSection h) = pruneSection h.
Proof.
  destruct h; try reflexivity. unfold pruneSection. now rewrite fold_prune_twice.
Qed.

(* ================================================================== *)
(** ** Idempotence of the two transforms *)

(** A merged document is a fixed point of merge. *)
Lemma merge_again (d d1 : obj) : merge d = Done d1 -> merge d1 = Done d1.
Proof.
  intros E.
  destruct (merge_done d d1 E) as [(hooks0 & Hget & -> & _)|(xs & Hget & ->)];
    [|assumption].
  clear E Hget. generalize (initHooks d) as d0. intros d0.
  unfold merge, initHooks.
  rewrite PropsFacts.get_set_same. simpl truthy. cbv iota.
  rewrite PropsFacts.get_set_same, fold_merge_twice.
  apply f_equal. apply PropsFacts.set_get_id. apply PropsFacts.get_set_same.
Qed.

(** C2. Merging an already merged document gives that same document: for
    every settings document [d], [merge (merge d) = merge d]; a run that
    throws on [d] has nothing to merge again. *)
Theorem merge_idempotent (d : obj) : andThen (merge d) merge = merge d.
Proof.
  destruct (merge d) as [d1|] eqn:E; simpl; [|reflexivity].
  now apply merge_again with d.
Qed.

(** C10. Pruning an already pruned document changes nothing: for every
    settings document [d], [prune (prune d) = prune d]. *)
Theorem prune_idempotent (d : obj) : prune (prune d) = prune d.
Proof.
  destruct (Props.get "hooks" d) as [h|] eqn:E.
  - destruct (truthy h) eqn:T.
    + destruct (noKeys (pruneSection h)) eqn:K.
      * assert (P : prune d = Props.delete "hooks" d)
          by (unfold prune; now rewrite E, T, K).
        rewrite P. unfold prune. now rewrite PropsFacts.get_delete_same.
      * assert (P : prune d = Props.set "hooks" (pruneSection h) d)
          by (unfold prune; now rewrite E, T, K).
        rewrite P. unfold prune. rewrite PropsFacts.get_set_same.
        rewrite truthy_pruneSection, T, pruneSection_twice, K.
        apply PropsFacts.set_get_id. apply PropsFacts.get_set_same.
    + assert (P : prune d = d) by (unfold prune; now rewrite E, T).
      now rewrite !P.
  - assert (P : prune d = d) by (unfold prune; now rewrite E).
    now rewrite !P.
Qed.

(* ================================================================== *)
(** ** Events of a merged or pruned document *)

Lemma eventValue_merge_in d d1 e ours :
  merge d = Done d1 ->
  hooksIsMapping d = true ->
  Props.get e HOOKS_CONFIG = Some ours ->
  eventValue d1 e = Some (JArr (mergedEntry (eventValue d e) ours)).
Proof.
  intros E M Hc.
  destruct (merge_done d d1 E) as [(hooks0 & Hget & -> & Hev & _)|(xs & Hget & ->)].
  - unfold eventValue at 1. rewrite PropsFacts.get_set_same, Hev.
    now apply get_fold_merge_in; [exact eventNames_NoDup|].
  - unfold hooksIsMapping in M. rewrite Hget in M. discriminate.
Qed.

Lemma eventValue_merge_out d d1 e :
  merge d = Done d1 ->
  Props.get e HOOKS_CONFIG = None ->
  eventValue d1 e = eventValue d e.
Proof.
  intros E Hc.
  destruct (merge_done d d1 E) as [(hooks0 & Hget & -> & Hev & _)|(xs & Hget & ->)];
    [|reflexivity].
  unfold eventValue at 1. rewrite PropsFacts.get_set_same, Hev.
  now apply get_fold_merge_out.
Qed.

(** Without the shape assumption: on an array-valued [hooks] nothing is
    readable at an event name, before or after. *)
Lemma eventValue_merge_any d d1 e ours :
  merge d = Done d1 ->
  Props.get e HOOKS_CONFIG = Some ours ->
  eventValue d1 e = Some (JArr (mergedEntry (eventValue d e) ours))
  \/ (hooksIsMapping d = false /\ d1 = d /\ eventValue d e = None).
Proof.
  intros E Hc.
  destruct (merge_done d d1 E) as [(hooks0 & Hget & Hd1 & Hev & M)|(xs & Hget & ->)].
  - left. now apply eventValue_merge_in.
  - right. unfold hooksIsMapping, eventValue. now rewrite Hget.
Qed.

Lemma eventValue_prune d e :
  eventValue (prune d) e
  = match Props.get "hooks" d with
    | Some (JObj hooks) => Props.get e (fold_left pruneEvent eventNames hooks)
    | _ => None
    end.
Proof.
  unfold prune, eventValue.
  destruct (Props.get "hooks" d) as [h|] eqn:E; [|now rewrite E].
  destruct (truthy h) eqn:T.
  - destruct (noKeys (pruneSection h)) eqn:K.
    + rewrite PropsFacts.get_delete_same.
      destruct h; try reflexivity.
      symmetry. apply PropsFacts.get_empty.
      simpl in K. now apply Nat.eqb_eq in K.
    + rewrite PropsFacts.get_set_same. destruct h; reflexivity.
  - rewrite E. destruct h; try reflexivity. discriminate.
Qed.

Lemma eventValue_prune_in d e :
  inCatalog e = true -> eventValue (prune d) e = prunedEntry (eventValue d e).
Proof.
  intros H. rewrite eventValue_prune. unfold eventValue.
  destruct (Props.get "hooks" d) as [[| | | | |hooks]|]; try reflexivity.
  apply get_fold_prune_in; [exact eventNames_NoDup|now apply inCatalog_In].
Qed.

Lemma eventValue_prune_out d e :
  inCatalog e = false -> eventValue (prune d) e = eventValue d e.
Proof.
  intros H. rewrite eventValue_prune. unfold eventValue.
  destruct (Props.get "hooks" d) as [[| | | | |hooks]|]; try reflexivity.
  apply get_fold_prune_out. rewrite <- inCatalog_In. congruence.
Qed.

Lemma length_zero_nil (A : Type) (l : list A) :
  Nat.eqb (List.length l) 0 = match l with [] => true | _ => false end.
Proof. destruct l; reflexivity. Qed.

(* ================================================================== *)
(** ** The merge policy, event by event *)

(** C5. For a document whose hooks section is a mapping (or missing, or a
    falsy value), merge completes, and at each catalog event: where the
    document has no array the result has the canonical sequence; where the
    existing array fails the loose check the result is that array followed
    by the canonical sequence; otherwise the array is as it was. *)
Theorem merge_policy (d : obj) (e : string) (ourEntries : list json) :
  hooksIsMapping d = true ->
  Props.get e HOOKS_CONFIG = Some ourEntries ->
  exists d1,
    merge d = Done d1
    /\ eventGroups d1 e
       = Some match eventGroups d e with
              | None => ourEntries
              | Some existing =>
                  if hasOurHook existing then existing
                  else existing ++ ourEntries
              end.
Proof.
  intros M Hc. destruct (merge_total d M) as [d1 E].
  exists d1. split; [assumption|].
  unfold eventGroups. rewrite (eventValue_merge_in d d1 e ourEntries E M Hc).
  unfold mergedEntry.
  destruct (eventValue d e) as [[| | | |existing|]|]; reflexivity.
Qed.

Lemma merge_policy_witness :
  hooksIsMapping (themedStop [userGroup]) = true
  /\ Props.get "Stop" HOOKS_CONFIG = Some [plainGroup]
  /\ exists d1,
       merge (themedStop [userGroup]) = Done d1
       /\ eventGroups d1 "Stop" = Some [userGroup; plainGroup].
Proof.
  split; [reflexivity|]. split; [reflexivity|].
  exact (merge_policy (themedStop [userGroup]) "Stop" [plainGroup]
           eq_refl eq_refl).
Defined.

(* ================================================================== *)
(** ** Loose detection against strict removal *)

Lemma eventGroups_value d e arr :
  eventGroups d e = Some arr -> eventValue d e = Some (JArr arr).
Proof.
  unfold eventGroups.
  destruct (eventValue d e) as [[| | | |gs|]|]; try discriminate. congruence.
Qed.

Lemma eventGroups_mapping d e arr :
  eventGroups d e = Some arr -> hooksIsMapping d = true.
Proof.
  unfold eventGroups, eventValue, hooksIsMapping.
  destruct (Props.get "hooks" d) as [[| | | | |hooks]|]; try discriminate.
  reflexivity.
Qed.

Lemma hasOurHook_intro arr g hs h :
  In g arr -> groupActions g = Some hs -> In h hs -> carriesSignature h = true ->
  hasOurHook arr = true.
Proof.
  intros Hg Ha Hh Hs. unfold hasOurHook. apply existsb_exists.
  exists g. split; [assumption|]. rewrite Ha.
  apply existsb_exists. eauto.
Qed.

Lemma keepEntry_mixed g hs h :
  groupActions g = Some hs -> In h hs -> carriesSignature h = false ->
  keepEntry g = true.
Proof.
  intros Ha Hh Hs. unfold keepEntry. rewrite Ha.
  apply negb_true_iff. destruct (forallb carriesSignature hs) eqn:F; [|reflexivity].
  rewrite forallb_forall in F. rewrite (F h Hh) in Hs. discriminate.
Qed.

(** An event whose array already passes the loose check comes out of merge
    with that same array. *)
Lemma merge_leaves_detected d e arr :
  eventGroups d e = Some arr -> hasOurHook arr = true ->
  exists d1, merge d = Done d1 /\ eventGroups d1 e = Some arr.
Proof.
  intros Hg Hh.
  destruct (merge_total d (eventGroups_mapping d e arr Hg)) as [d1 E].
  exists d1. split; [assumption|].
  unfold eventGroups.
  destruct (Props.get e HOOKS_CONFIG) as [ours|] eqn:Hc.
  - rewrite (eventValue_merge_in d d1 e ours E (eventGroups_mapping d e arr Hg) Hc).
    rewrite (eventGroups_value d e arr Hg). simpl. now rewrite Hh.
  - rewrite (eventValue_merge_out d d1 e E Hc).
    now rewrite (eventGroups_value d e arr Hg).
Qed.

(** A group the filter keeps is still at its event after prune. *)
Lemma prune_leaves_kept d e arr g :
  eventGroups d e = Some arr -> In g arr -> keepEntry g = true ->
  exists arr', eventGroups (prune d) e = Some arr' /\ In g arr'.
Proof.
  intros Hg Hin Hk. unfold eventGroups.
  destruct (inCatalog e) eqn:C.
  - rewrite (eventValue_prune_in d e C), (eventGroups_value d e arr Hg).
    assert (Hf : In g (removeOurHookEntries arr)) by (apply filter_In; auto).
    unfold prunedEntry. rewrite length_zero_nil.
    destruct (removeOurHookEntries arr) as [|x xs]; [contradiction|]. eauto.
  - rewrite (eventValue_prune_out d e C), (eventGroups_value d e arr Hg). eauto.
Qed.

(** C7. A group holding both an action that carries the signature and one
    that does not (a foreign command) makes the loose check true for its
    event, so merge leaves that event's sequence as it is; prune's filter
    keeps the group, and it is still in the event's sequence after prune. *)
Theorem strict_loose_asymmetry
    (d : obj) (e : string) (arr : list json) (g : json) (hs : list json)
    (ours foreign : json) :
  eventGroups d e = Some arr ->
  In g arr ->
  groupActions g = Some hs ->
  In ours hs -> carriesSignature ours = true ->
  In foreign hs -> carriesSignature foreign = false ->
  hasOurHook arr = true
  /\ (exists d1, merge d = Done d1 /\ eventGroups d1 e = Some arr)
  /\ In g (removeOurHookEntries arr)
  /\ (exists arr', eventGroups (prune d) e = Some arr' /\ In g arr').
Proof.
  intros Hg Hin Ha Ho Hos Hf Hfs.
  assert (Hh : hasOurHook arr = true)
    by exact (hasOurHook_intro arr g hs ours Hin Ha Ho Hos).
  assert (Hk : keepEntry g = true)
    by exact (keepEntry_mixed g hs foreign Ha Hf Hfs).
  repeat split.
  - assumption.
  - now apply merge_leaves_detected.
  - apply filter_In; auto.
  - eapply prune_leaves_kept; eassumption.
Qed.

Lemma strict_loose_asymmetry_witness :
  hasOurHook [mixedGroup] = true
  /\ (exists d1, merge (themedStop [mixedGroup]) = Done d1
                 /\ eventGroups d1 "Stop" = Some [mixedGroup])
  /\ In mixedGroup (removeOurHookEntries [mixedGroup])
  /\ (exists arr', eventGroups (prune (themedStop [mixedGroup])) "Stop" = Some arr'
                   /\ In mixedGroup arr').
Proof.
  apply (strict_loose_asymmetry (themedStop [mixedGroup]) "Stop" [mixedGroup]
           mixedGroup [foreignAction; ourAction] ourAction foreignAction).
  - reflexivity.
  - simpl; auto.
  - reflexivity.
  - simpl; auto.
  - vm_compute; reflexivity.
  - simpl; auto.
  - vm_compute; reflexivity.
Defined.

(* ================================================================== *)
(** ** The presence check *)

(** C9. [areHooksConfigured] answers [true] exactly when the file exists,
    parses to a document, the document has a hooks section, and that section
    has a key that is a catalog event name, whatever the key holds; so it
    answers [false] for a missing file, for unparsable content, and for a
    section with no catalog event key. *)
Theorem areHooksConfigured_iff (f : file) :
  (areHooksConfigured f = true <->
   exists settings hooks e,
     f = Parsed (JObj settings)
     /\ Props.get "hooks" settings = Some (JObj hooks)
     /\ In e eventNames
     /\ Props.has e hooks = true)
  /\ areHooksConfigured Absent = false
  /\ areHooksConfigured Unparsable = false
  /\ (forall settings hooks,
        f = Parsed (JObj settings) ->
        Props.get "hooks" settings = Some (JObj hooks) ->
        (forall e, In e eventNames -> Props.has e hooks = false) ->
        areHooksConfigured f = false).
Proof.
  repeat split.
  - destruct f as [| |v]; try discriminate.
    destruct v as [| | | | |settings]; try discriminate.
    unfold areHooksConfigured.
    destruct (Props.get "hooks" settings) as [h|] eqn:E; [|discriminate].
    destruct (truthy h); [|discriminate].
    destruct h as [| | | | |hooks]; try discriminate.
    intros H. apply existsb_exists in H. destruct H as (e & Hin & Hhas).
    exists settings, hooks, e. auto.
  - intros (settings & hooks & e & -> & Hh & Hin & Hhas).
    unfold areHooksConfigured. rewrite Hh. simpl truthy. cbv iota.
    apply existsb_exists. eauto.
  - intros settings hooks -> Hh Hnone.
    unfold areHooksConfigured. rewrite Hh. simpl truthy. cbv iota.
    destruct (existsb _ eventNames) eqn:X; [|reflexivity].
    apply existsb_exists in X. destruct X as (e & Hin & Hhas).
    rewrite (Hnone e Hin) in Hhas. discriminate.
Qed.

(* ================================================================== *)
(** ** The exported operations on sample files *)

(** Setup on a missing file writes the six catalog events and nothing else. *)
Example setupHooks_missing_file :
  setupHooks Absent
  = Done (Parsed (JObj [("hooks",
                         JObj (map (fun ev => (fst ev, JArr (snd ev))) HOOKS_CONFIG))])).
Proof. reflexivity. Qed.

(** Unparsable content is replaced the same way. *)
Example setupHooks_unparsable_file : setupHooks Unparsable = setupHooks Absent.
Proof. reflexivity. Qed.

(** Setup after a user group at [Stop], then removal, gives the file back. *)
Example setup_then_remove :
  andThen (setupHooks (Parsed (JObj (themedStop [userGroup]))))
          (fun f => Done (removeHooks f))
  = Done (Parsed (JObj (themedStop [userGroup]))).
Proof. vm_compute. reflexivity. Qed.

(** Removal where the only event holds only our group drops [hooks]. *)
Example removeHooks_only_ours :
  removeHooks (Parsed (JObj onlyOurs)) = Parsed (JObj [("model", JStr "opus")]).
Proof. reflexivity. Qed.

(* ================================================================== *)
(** ** The filter against the ownership rule *)

(** The filter drops exactly the groups that are ours and those with no
    action at all. *)
Lemma keepEntry_false_iff g :
  keepEntry g = false <-> isOurs g = true \/ hasNoActions g = true.
Proof.
  unfold keepEntry, isOurs, hasNoActions.
  destruct (groupActions g) as [[|h hs]|]; simpl.
  - intuition.
  - rewrite negb_false_iff. intuition discriminate.
  - intuition discriminate.
Qed.

Lemma keepEntry_isOurs g :
  hasNoActions g = false -> keepEntry g = negb (isOurs g).
Proof.
  unfold keepEntry, isOurs, hasNoActions.
  destruct (groupActions g) as [[|h hs]|]; simpl; intros H;
    [discriminate|reflexivity|reflexivity].
Qed.

Lemma removeOurHookEntries_nonOurs groups :
  existsb hasNoActions groups = false ->
  removeOurHookEntries groups = nonOurs groups.
Proof.
  unfold removeOurHookEntries, nonOurs.
  induction groups as [|g groups IH]; simpl; [reflexivity|].
  intros H. apply orb_false_iff in H. destruct H as [Hg Hrest].
  rewrite (keepEntry_isOurs g Hg), IH by assumption. reflexivity.
Qed.

Lemma nonOurs_app xs ys : nonOurs (xs ++ ys) = nonOurs xs ++ nonOurs ys.
Proof. apply filter_app. Qed.

Lemma nonOurs_idem xs : nonOurs (nonOurs xs) = nonOurs xs.
Proof.
  unfold nonOurs. induction xs as [|x xs IH]; simpl; [reflexivity|].
  destruct (negb (isOurs x)) eqn:E; simpl; [rewrite E, IH|]; auto.
Qed.

Lemma catalog_isOurs name ours :
  Props.get name HOOKS_CONFIG = Some ours -> nonOurs ours = [].
Proof.
  unfold HOOKS_CONFIG. simpl.
  repeat (destruct (String.eqb name _);
          [intros H; injection H as <-; vm_compute; reflexivity|]).
  discriminate.
Qed.

(* ================================================================== *)
(** ** What the transforms leave alone *)

Lemma others_initHooks d : Props.others "hooks" (initHooks d) = Props.others "hooks" d.
Proof.
  unfold initHooks.
  destruct (Props.get "hooks" d) as [h|]; [destruct (truthy h)|];
    try reflexivity; apply PropsFacts.others_set.
Qed.

(** Merge leaves every top-level key other than [hooks] as it was. *)
Lemma merge_other_keys d d1 :
  merge d = Done d1 -> Props.others "hooks" d1 = Props.others "hooks" d.
Proof.
  intros E.
  destruct (merge_done d d1 E) as [(hooks0 & _ & -> & _)|(xs & _ & ->)];
    [|reflexivity].
  rewrite PropsFacts.others_set. apply others_initHooks.
Qed.

(** So does prune. *)
Lemma prune_other_keys d : Props.others "hooks" (prune d) = Props.others "hooks" d.
Proof.
  unfold prune.
  destruct (Props.get "hooks" d) as [h|]; [|reflexivity].
  destruct (truthy h); [|reflexivity].
  destruct (noKeys (pruneSection h)).
  - apply PropsFacts.others_delete.
  - apply PropsFacts.others_set.
Qed.

(** Merge keeps the non-ours groups of every event, in order. *)
Lemma merge_keeps_nonOurs d d1 e arr :
  merge d = Done d1 -> eventGroups d e = Some arr ->
  exists arr1, eventGroups d1 e = Some arr1 /\ nonOurs arr1 = nonOurs arr.
Proof.
  intros E Hg. unfold eventGroups.
  destruct (Props.get e HOOKS_CONFIG) as [ours|] eqn:Hc.
  - rewrite (eventValue_merge_in d d1 e ours E (eventGroups_mapping d e arr Hg) Hc).
    rewrite (eventGroups_value d e arr Hg). eexists. split; [reflexivity|].
    simpl. destruct (hasOurHook arr); [reflexivity|].
    rewrite nonOurs_app, (catalog_isOurs e ours Hc). apply app_nil_r.
  - rewrite (eventValue_merge_out d d1 e E Hc), (eventGroups_value d e arr Hg).
    eauto.
Qed.

(** Prune keeps the non-ours groups of an event, in order, when none of the
    event's groups has an empty [hooks] array. *)
Lemma prune_keeps_nonOurs d e arr :
  eventGroups d e = Some arr -> noEmptyGroupsAt d e = true ->
  nonOurs match eventGroups (prune d) e with Some kept => kept | None => [] end
  = nonOurs arr.
Proof.
  intros Hg Hne. unfold noEmptyGroupsAt in Hne. rewrite Hg in Hne.
  apply negb_true_iff in Hne.
  unfold eventGroups at 1. destruct (inCatalog e) eqn:C.
  - rewrite (eventValue_prune_in d e C), (eventGroups_value d e arr Hg).
    unfold prunedEntry. rewrite length_zero_nil.
    rewrite (removeOurHookEntries_nonOurs arr Hne).
    destruct (nonOurs arr) as [|x xs] eqn:N; [reflexivity|].
    rewrite <- N. apply nonOurs_idem.
  - now rewrite (eventValue_prune_out d e C), (eventGroups_value d e arr Hg).
Qed.

(* ================================================================== *)
(** ** The group with no actions *)

(** C4. The filter removes a group exactly when its [hooks] is an array
    whose elements all carry the signature, the empty array included: the
    group [{"matcher": "Bash", "hooks": []}], which is not ours by the
    ownership rule and which the loose check does not detect either, is
    dropped by [removeOurHookEntries], and prune deletes it together with
    its event and the hooks section. *)
Theorem empty_group_is_removed :
  (forall g, keepEntry g = false <->
             exists hs, groupActions g = Some hs /\ forallb carriesSignature hs = true)
  /\ isOurs emptyGroup = false
  /\ hasOurHook [emptyGroup] = false
  /\ removeOurHookEntries [emptyGroup] = []
  /\ prune (themedStop [emptyGroup]) = [("theme", JStr "dark")].
Proof.
  split; [|repeat split].
  intros g. unfold keepEntry.
  destruct (groupActions g) as [hs|]; split.
  - intros H. apply negb_false_iff in H. eauto.
  - intros (hs' & Heq & H). injection Heq as <-. now rewrite H.
  - discriminate.
  - intros (hs' & Heq & _). discriminate.
Qed.

(** C3. On a document with a foreign key and, at [Stop], a user group
    followed by a group whose [hooks] array is empty, both groups are
    non-ours, yet prune leaves only the first: the second is removed. The
    foreign key is untouched. *)
Theorem prune_removes_empty_user_group :
  nonOurs [userGroup; emptyGroup] = [userGroup; emptyGroup]
  /\ eventGroups (themedStop [userGroup; emptyGroup]) "Stop"
     = Some [userGroup; emptyGroup]
  /\ eventGroups (prune (themedStop [userGroup; emptyGroup])) "Stop"
     = Some [userGroup]
  /\ Props.get "theme" (prune (themedStop [userGroup; emptyGroup]))
     = Some (JStr "dark").
Proof. repeat split. Qed.

(* ================================================================== *)
(** ** Merge, then prune *)

Lemma removed_mergedEntry old ours :
  removeOurHookEntries ours = [] ->
  removeOurHookEntries (mergedEntry old ours)
  = match old with
    | Some (JArr existing) => removeOurHookEntries existing
    | _ => []
    end.
Proof.
  intros H. unfold mergedEntry.
  destruct old as [[| | | |existing|]|]; try assumption.
  destruct (hasOurHook existing); [reflexivity|].
  rewrite removeOurHookEntries_app, H. apply app_nil_r.
Qed.

(** C1, as stated, fails: an event outside the catalog that holds only our
    group is still there after merge and prune. *)
Lemma round_trip_counterexample : ~ roundTripStated oursElsewhere.
Proof.
  intros H.
  pose (d1 := match merge oursElsewhere with Done x => x | Throws => [] end).
  destruct (H d1 "PostToolUse" [plainGroup]) as [_ Habsent];
    [vm_compute; reflexivity|vm_compute; reflexivity|].
  specialize (Habsent eq_refl). vm_compute in Habsent. discriminate.
Qed.

(** C1. After merge and prune, a catalog event none of whose groups has an
    empty [hooks] array holds exactly its original non-ours groups, in
    order, and is absent when there are none or when the document had no
    array there; an event outside the catalog holds what it held. *)
Theorem round_trip (d d1 : obj) (e : string) :
  merge d = Done d1 ->
  (inCatalog e = true -> noEmptyGroupsAt d e = true) ->
  eventValue (prune d1) e
  = if inCatalog e then
      match eventGroups d e with
      | Some groups =>
          match nonOurs groups with
          | [] => None
          | kept => Some (JArr kept)
          end
      | None => None
      end
    else eventValue d e.
Proof.
  intros E Hne. destruct (inCatalog e) eqn:C.
  - specialize (Hne eq_refl).
    destruct (inCatalog_get e C) as [ours Hc].
    rewrite (eventValue_prune_in d1 e C).
    destruct (eventValue_merge_any d d1 e ours E Hc) as [->|(_ & -> & Hv)].
    + unfold prunedEntry. rewrite length_zero_nil.
      rewrite (removed_mergedEntry _ ours (catalog_removed e ours Hc)).
      unfold noEmptyGroupsAt in Hne. unfold eventGroups in *.
      destruct (eventValue d e) as [[| | | |existing|]|]; try reflexivity.
      apply negb_true_iff in Hne.
      rewrite (removeOurHookEntries_nonOurs existing Hne).
      destruct (nonOurs existing); reflexivity.
    + unfold eventGroups. rewrite Hv. reflexivity.
  - rewrite (eventValue_prune_out d1 e C).
    apply eventValue_merge_out; [assumption|].
    unfold inCatalog, Props.has in C.
    destruct (Props.get e HOOKS_CONFIG); [discriminate|reflexivity].
Qed.

Lemma round_trip_witness :
  merge (themedStop [userGroup]) = Done themedStopMerged
  /\ noEmptyGroupsAt (themedStop [userGroup]) "Stop" = true
  /\ eventValue (prune themedStopMerged) "Stop" = Some (JArr [userGroup])
  /\ eventValue (prune themedStopMerged) "SessionStart" = None.
Proof.
  split; [vm_compute; reflexivity|]. split; [reflexivity|]. split.
  - exact (round_trip (themedStop [userGroup]) themedStopMerged "Stop"
             eq_refl (fun _ => eq_refl)).
  - exact (round_trip (themedStop [userGroup]) themedStopMerged "SessionStart"
             eq_refl (fun _ => eq_refl)).
Defined.

(* ================================================================== *)
(** ** No second copy *)

(** C6, as stated, fails: a document that holds the canonical group twice
    still holds it twice after two merges. *)
Lemma no_duplication_counterexample :
  ~ noDuplicationStated (themedStop [plainGroup; plainGroup]) "Stop".
Proof.
  intros H.
  assert (C : containsCanonical (themedStop [plainGroup; plainGroup]) "Stop").
  { exists [plainGroup], [plainGroup; plainGroup].
    repeat split. intros g [<-|[]]. simpl; auto. }
  pose (d2 := match andThen (merge (themedStop [plainGroup; plainGroup])) merge with
              | Done x => x
              | Throws => []
              end).
  assert (E : andThen (merge (themedStop [plainGroup; plainGroup])) merge = Done d2)
    by (vm_compute; reflexivity).
  specialize (H C d2 E). vm_compute in H. discriminate.
Qed.

Lemma hasOurHook_incl xs ys :
  incl xs ys -> hasOurHook xs = true -> hasOurHook ys = true.
Proof.
  unfold hasOurHook. intros Hi H.
  apply existsb_exists in H. destruct H as (g & Hin & Hg).
  apply existsb_exists. exists g. auto.
Qed.

(** C6. When the array at a catalog event already contains the event's
    canonical group, two merges complete and leave that array exactly as it
    was: nothing is inserted, and the event has as many our-groups as
    before (one, when it had one). *)
Theorem no_duplication (d : obj) (e : string) (canon groups : list json) :
  Props.get e HOOKS_CONFIG = Some canon ->
  eventGroups d e = Some groups ->
  incl canon groups ->
  exists d2,
    andThen (merge d) merge = Done d2
    /\ eventGroups d2 e = Some groups
    /\ oursCount d2 e = oursCount d e.
Proof.
  intros Hc Hg Hi.
  assert (Hh : hasOurHook groups = true)
    by exact (hasOurHook_incl canon groups Hi (catalog_detected e canon Hc)).
  destruct (merge_leaves_detected d e groups Hg Hh) as (d1 & E & Hg1).
  exists d1. rewrite E. simpl. repeat split.
  - now apply merge_again with d.
  - assumption.
  - unfold oursCount. now rewrite Hg, Hg1.
Qed.

Lemma no_duplication_witness :
  exists d2,
    andThen (merge (themedStop [userGroup; plainGroup])) merge = Done d2
    /\ eventGroups d2 "Stop" = Some [userGroup; plainGroup]
    /\ oursCount d2 "Stop" = 1.
Proof.
  refine (no_duplication (themedStop [userGroup; plainGroup]) "Stop"
            [plainGroup] [userGroup; plainGroup] eq_refl eq_refl _).
  intros g [<-|[]]. simpl; auto.
Defined.

(* ================================================================== *)
(** ** More facts about property lists *)

Lemma set_set (V : Type) k (v v' : V) o :
  Props.set k v (Props.set k v' o) = Props.set k v o.
Proof.
  induction o as [|[k0 v0] o IH]; simpl.
  - now rewrite String.eqb_refl.
  - destruct (String.eqb k k0) eqn:E; simpl.
    + now rewrite String.eqb_refl.
    + now rewrite E, IH.
Qed.

Lemma delete_set (V : Type) k (v : V) o :
  Props.delete k (Props.set k v o) = Props.delete k o.
Proof. exact (PropsFacts.others_set k v o). Qed.

Lemma set_set_comm (V : Type) k k' (v v' : V) o :
  k <> k' -> Props.get k o <> None ->
  Props.set k v (Props.set k' v' o) = Props.set k' v' (Props.set k v o).
Proof.
  intros Hne. induction o as [|[k0 v0] o IH]; simpl; [congruence|].
  destruct (String.eqb_spec k k0) as [->|Hk]; intros Hget.
  - destruct (String.eqb_spec k' k0) as [->|Hk']; [congruence|]. simpl.
    rewrite String.eqb_refl.
    destruct (String.eqb_spec k' k0); [congruence|reflexivity].
  - destruct (String.eqb_spec k' k0) as [->|Hk']; simpl.
    + destruct (String.eqb_spec k k0); [congruence|].
      now rewrite String.eqb_refl.
    + destruct (String.eqb_spec k k0); [congruence|].
      destruct (String.eqb_spec k' k0); [congruence|].
      now rewrite IH.
Qed.

Lemma delete_set_comm (V : Type) k k' (v : V) o :
  k <> k' ->
  Props.delete k (Props.set k' v o) = Props.set k' v (Props.delete k o).
Proof.
  intros Hne. unfold Props.delete.
  induction o as [|[k0 v0] o IH]; simpl.
  - destruct (String.eqb_spec k k'); [congruence|reflexivity].
  - destruct (String.eqb_spec k' k0) as [->|Hk']; simpl.
    + destruct (String.eqb_spec k k0); [congruence|]. simpl.
      now rewrite String.eqb_refl.
    + destruct (String.eqb_spec k k0) as [->|Hk]; simpl.
      * exact IH.
      * destruct (String.eqb_spec k' k0); [congruence|]. now rewrite IH.
Qed.

Lemma keys_set (V : Type) k (v : V) o :
  map fst (Props.set k v o)
  = if Props.has k o then map fst o else map fst o ++ [k].
Proof.
  unfold Props.has. induction o as [|[k0 v0] o IH]; simpl; [reflexivity|].
  destruct (String.eqb_spec k k0) as [->|Hk]; simpl; [reflexivity|].
  rewrite IH. destruct (Props.get k o); reflexivity.
Qed.

Lemma keys_delete (V : Type) k (o : list (string * V)) :
  map fst (Props.delete k o) = filter (fun k' => negb (String.eqb k k')) (map fst o).
Proof.
  unfold Props.delete. induction o as [|[k0 v0] o IH]; simpl; [reflexivity|].
  destruct (String.eqb k k0); simpl; now rewrite IH.
Qed.

(* ================================================================== *)
(** ** Setup followed by removal *)

(** A prune turn at one event and a merge turn at another do not see each
    other. *)
Lemma pruneEvent_mergeEvent_comm hooks e e' ours :
  e <> e' ->
  pruneEvent (mergeEvent hooks (e', ours)) e
  = mergeEvent (pruneEvent hooks e) (e', ours).
Proof.
  intros Hne. unfold pruneEvent at 1.
  rewrite (get_mergeEvent_other hooks e' ours e) by congruence.
  unfold pruneEvent.
  destruct (Props.get e hooks) as [[| | | |existing|]|] eqn:Ee; try reflexivity.
  destruct (Nat.eqb (List.length (removeOurHookEntries existing)) 0).
  - unfold mergeEvent.
    rewrite (PropsFacts.get_delete_other e e' hooks Hne).
    destruct (Props.get e' hooks) as [[| | | |x|]|];
      try (now apply delete_set_comm).
    destruct (hasOurHook x); [reflexivity|now apply delete_set_comm].
  - assert (Hp : Props.get e hooks <> None) by congruence.
    unfold mergeEvent.
    rewrite (PropsFacts.get_set_other e e' _ hooks Hne).
    destruct (Props.get e' hooks) as [[| | | |x|]|];
      try (now apply set_set_comm).
    destruct (hasOurHook x); [reflexivity|now apply set_set_comm].
Qed.

Lemma pruneEvent_fold_merge cfg hooks e :
  ~ In e (map fst cfg) ->
  pruneEvent (fold_left mergeEvent cfg hooks) e
  = fold_left mergeEvent cfg (pruneEvent hooks e).
Proof.
  revert hooks. induction cfg as [|[e' ours] cfg IH]; simpl; intros hooks H;
    [reflexivity|].
  rewrite IH by tauto. f_equal. apply pruneEvent_mergeEvent_comm.
  intros ->. tauto.
Qed.

(** At a clean event, the prune turn undoes the merge turn. *)
Lemma pruneEvent_mergeEvent_undo hooks e ours :
  cleanEvent hooks e = true ->
  removeOurHookEntries ours = [] ->
  pruneEvent (mergeEvent hooks (e, ours)) e = hooks.
Proof.
  unfold cleanEvent. intros Hc Ho. unfold pruneEvent.
  rewrite get_mergeEvent_same. unfold mergedEntry, mergeEvent.
  destruct (Props.get e hooks) as [[| | | |existing|]|] eqn:Ee; try discriminate.
  - apply andb_true_iff in Hc. destruct Hc as [Hlen Hkeep].
    assert (Hf : removeOurHookEntries existing = existing).
    { unfold removeOurHookEntries. clear Ee Hlen.
      induction existing as [|g gs IH]; simpl in *; [reflexivity|].
      apply andb_true_iff in Hkeep. destruct Hkeep as [Hg Hgs].
      now rewrite Hg, IH. }
    destruct (hasOurHook existing).
    + rewrite Hf. apply negb_true_iff in Hlen. rewrite Hlen.
      now apply PropsFacts.set_get_id.
    + rewrite removeOurHookEntries_app, Ho, app_nil_r, Hf.
      apply negb_true_iff in Hlen. rewrite Hlen.
      rewrite set_set. now apply PropsFacts.set_get_id.
  - rewrite Ho. simpl. rewrite delete_set.
    now apply PropsFacts.delete_absent.
Qed.

Lemma fold_prune_fold_merge cfg hooks :
  NoDup (map fst cfg) ->
  (forall e ours, In (e, ours) cfg -> removeOurHookEntries ours = []) ->
  forallb (cleanEvent hooks) (map fst cfg) = true ->
  fold_left pruneEvent (map fst cfg) (fold_left mergeEvent cfg hooks) = hooks.
Proof.
  induction cfg as [|[e ours] cfg IH]; simpl; intros Hnd Hrm Hclean;
    [reflexivity|].
  inversion Hnd as [|? ? Hnotin Hnd']; subst.
  apply andb_true_iff in Hclean. destruct Hclean as [He Hrest].
  rewrite pruneEvent_fold_merge by assumption.
  rewrite pruneEvent_mergeEvent_undo; [|assumption|eapply Hrm; eauto].
  apply IH; [assumption|eauto|assumption].
Qed.

Lemma catalog_removed_in e ours :
  In (e, ours) HOOKS_CONFIG -> removeOurHookEntries ours = [].
Proof.
  intros H. apply (catalog_removed e).
  apply in_get_NoDup; [exact eventNames_NoDup|assumption].
Qed.

(** On a restorable document merge completes and prune undoes it. *)
Lemma prune_merge_undo (d : obj) :
  restorable d = true ->
  exists d1, merge d = Done d1 /\ prune d1 = d.
Proof.
  unfold restorable. intros R.
  destruct (Props.get "hooks" d) as [h|] eqn:E.
  - destruct h as [| | | | |hooks]; try discriminate.
    apply andb_true_iff in R. destruct R as [Hlen Hclean].
    eexists. split.
    + unfold merge, initHooks. rewrite E. simpl truthy. cbv iota.
      rewrite E. reflexivity.
    + unfold prune. rewrite PropsFacts.get_set_same. simpl truthy. cbv iota.
      unfold pruneSection, eventNames.
      rewrite (fold_prune_fold_merge HOOKS_CONFIG hooks eventNames_NoDup
                 catalog_removed_in Hclean).
      unfold noKeys. apply negb_true_iff in Hlen. rewrite Hlen.
      rewrite set_set. now apply PropsFacts.set_get_id.
  - eexists. split.
    + unfold merge, initHooks. rewrite E, PropsFacts.get_set_same. reflexivity.
    + unfold prune. rewrite PropsFacts.get_set_same. simpl truthy. cbv iota.
      unfold pruneSection, eventNames.
      rewrite (fold_prune_fold_merge HOOKS_CONFIG [] eventNames_NoDup
                 catalog_removed_in eq_refl).
      simpl noKeys. cbv iota. rewrite !delete_set.
      now apply PropsFacts.delete_absent.
Qed.

(** X1. On a document with no hooks section, or with a non-empty hooks
    object in which every catalog event that is present holds a non-empty
    array of groups the filter keeps, merge completes and prune of the
    result is the original document, key for key and in the same order. *)
Theorem prune_merge_restores (d : obj) :
  restorable d = true ->
  exists d1, merge d = Done d1 /\ prune d1 = d.
Proof. exact (prune_merge_undo d). Qed.

Lemma prune_merge_restores_witness :
  restorable (themedStop [userGroup; mixedGroup]) = true
  /\ exists d1, merge (themedStop [userGroup; mixedGroup]) = Done d1
                /\ prune d1 = themedStop [userGroup; mixedGroup].
Proof.
  split; [vm_compute; reflexivity|].
  apply (prune_merge_restores (themedStop [userGroup; mixedGroup])).
  vm_compute; reflexivity.
Defined.

Lemma clean_groups_kept groups :
  forallb keepEntry groups = true -> removeOurHookEntries groups = groups.
Proof.
  unfold removeOurHookEntries.
  induction groups as [|g gs IH]; simpl; [reflexivity|].
  intros H. apply andb_true_iff in H. destruct H as [Hg Hgs].
  now rewrite Hg, IH.
Qed.

(** X2. Removal is a no-op where there is nothing of ours: on a document
    with no hooks section, or with a non-empty hooks object in which every
    catalog event that is present holds a non-empty array of groups the
    filter keeps, prune returns the document itself. *)
Theorem prune_noop (d : obj) : restorable d = true -> prune d = d.
Proof.
  unfold restorable, prune. intros R.
  destruct (Props.get "hooks" d) as [h|] eqn:E; [|reflexivity].
  destruct h as [| | | | |hooks]; try discriminate.
  apply andb_true_iff in R. destruct R as [Hlen Hclean].
  simpl truthy. cbv iota. unfold pruneSection.
  assert (F : fold_left pruneEvent eventNames hooks = hooks).
  { apply fold_left_fixed. intros e Hin.
    rewrite forallb_forall in Hclean. specialize (Hclean e Hin).
    unfold cleanEvent in Hclean. unfold pruneEvent.
    destruct (Props.get e hooks) as [[| | | |groups|]|] eqn:Ee;
      try discriminate; try reflexivity.
    apply andb_true_iff in Hclean. destruct Hclean as [Hl Hk].
    rewrite (clean_groups_kept groups Hk).
    apply negb_true_iff in Hl. rewrite Hl.
    now apply PropsFacts.set_get_id. }
  rewrite F. unfold noKeys. apply negb_true_iff in Hlen. rewrite Hlen.
  now apply PropsFacts.set_get_id.
Qed.

Lemma prune_noop_witness :
  restorable (themedStop [userGroup]) = true
  /\ prune (themedStop [userGroup]) = themedStop [userGroup].
Proof.
  split; [reflexivity|]. apply (prune_noop (themedStop [userGroup])). reflexivity.
Defined.

(* ================================================================== *)
(** ** What merge adds, and where *)

Lemma has_initHooks d : Props.has "hooks" (initHooks d) = true.
Proof.
  unfold initHooks, Props.has.
  destruct (Props.get "hooks" d) as [h|] eqn:E.
  - destruct (truthy h); [now rewrite E|now rewrite PropsFacts.get_set_same].
  - now rewrite PropsFacts.get_set_same.
Qed.

Lemma keys_initHooks d :
  map fst (initHooks d)
  = if Props.has "hooks" d then map fst d else map fst d ++ ["hooks"].
Proof.
  unfold initHooks, Props.has.
  destruct (Props.get "hooks" d) as [h|] eqn:E.
  - destruct (truthy h); [reflexivity|].
    rewrite keys_set. unfold Props.has. now rewrite E.
  - rewrite keys_set. unfold Props.has. now rewrite E.
Qed.

(** X3. Merge touches nothing at the top level but [hooks]: the other
    keys keep their values and their order, [hooks] keeps its place when it
    was there and goes last when it was not. *)
Theorem merge_top_level (d d1 : obj) :
  merge d = Done d1 ->
  Props.others "hooks" d1 = Props.others "hooks" d
  /\ map fst d1
     = (if Props.has "hooks" d then map fst d else map fst d ++ ["hooks"]).
Proof.
  intros E. split; [now apply merge_other_keys|].
  destruct (merge_done d d1 E) as [(hooks0 & _ & -> & _)|(xs & Hget & ->)].
  - rewrite keys_set, has_initHooks. apply keys_initHooks.
  - unfold Props.has. now rewrite Hget.
Qed.

Lemma merge_top_level_witness :
  merge (themedStop [userGroup]) = Done themedStopMerged
  /\ Props.others "hooks" themedStopMerged = [("theme", JStr "dark")]
  /\ map fst themedStopMerged = ["theme"; "hooks"].
Proof.
  split; [vm_compute; reflexivity|].
  exact (merge_top_level (themedStop [userGroup]) themedStopMerged eq_refl).
Defined.

Lemma keys_mergeEvent hooks e ours :
  map fst (mergeEvent hooks (e, ours))
  = if Props.has e hooks then map fst hooks else map fst hooks ++ [e].
Proof.
  unfold mergeEvent.
  destruct (Props.get e hooks) as [[| | | |x|]|] eqn:E;
    try (rewrite keys_set; reflexivity).
  destruct (hasOurHook x); [|rewrite keys_set; reflexivity].
  unfold Props.has. now rewrite E.
Qed.

Lemma has_mergeEvent_other hooks e ours k :
  e <> k -> Props.has k (mergeEvent hooks (e, ours)) = Props.has k hooks.
Proof.
  intros H. unfold Props.has. now rewrite get_mergeEvent_other.
Qed.

Lemma keys_fold_merge cfg hooks :
  NoDup (map fst cfg) ->
  map fst (fold_left mergeEvent cfg hooks)
  = map fst hooks
    ++ filter (fun e => negb (Props.has e hooks)) (map fst cfg).
Proof.
  revert hooks. induction cfg as [|[e ours] cfg IH]; simpl; intros hooks Hnd.
  - now rewrite app_nil_r.
  - inversion Hnd as [|? ? Hnotin Hnd']; subst.
    rewrite IH by assumption. rewrite keys_mergeEvent.
    assert (Hf : filter (fun k => negb (Props.has k (mergeEvent hooks (e, ours))))
                   (map fst cfg)
                 = filter (fun k => negb (Props.has k hooks)) (map fst cfg)).
    { apply filter_ext_in. intros k Hk.
      rewrite has_mergeEvent_other; [reflexivity|]. intros ->. tauto. }
    rewrite Hf. destruct (Props.has e hooks); simpl; [reflexivity|].
    now rewrite <- app_assoc.
Qed.

(** X4. Inside a hooks object merge keeps every existing event key where it
    is and adds the catalog events that were missing after them, in catalog
    order. *)
Theorem merge_section_keys (d d1 : obj) (hooks : obj) :
  merge d = Done d1 ->
  Props.get "hooks" d = Some (JObj hooks) ->
  exists hooks1,
    Props.get "hooks" d1 = Some (JObj hooks1)
    /\ map fst hooks1
       = map fst hooks
         ++ filter (fun e => negb (Props.has e hooks)) eventNames.
Proof.
  intros E Hh.
  assert (E' : merge d
               = Done (Props.set "hooks"
                         (JObj (fold_left mergeEvent HOOKS_CONFIG hooks)) d)).
  { unfold merge, initHooks. rewrite Hh. simpl truthy. cbv iota. now rewrite Hh. }
  assert (Hd : d1 = Props.set "hooks"
                      (JObj (fold_left mergeEvent HOOKS_CONFIG hooks)) d)
    by congruence.
  subst d1. eexists. split; [apply PropsFacts.get_set_same|].
  apply keys_fold_merge. exact eventNames_NoDup.
Qed.

Lemma merge_section_keys_witness :
  exists hooks1,
    Props.get "hooks" themedStopMerged = Some (JObj hooks1)
    /\ map fst hooks1
       = ["Stop"; "UserPromptSubmit"; "PreToolUse"; "SessionStart";
          "SessionEnd"; "Notification"].
Proof.
  exact (merge_section_keys (themedStop [userGroup]) themedStopMerged
           [("Stop", JArr [userGroup])] eq_refl eq_refl).
Defined.

(** X5. Merge never drops or reorders a group: where an event held an
    array, the result holds that array followed by nothing or by the
    event's canonical sequence; and an event outside the catalog holds
    exactly what it held. *)
Theorem merge_only_appends (d d1 : obj) (e : string) (groups : list json) :
  merge d = Done d1 ->
  eventGroups d e = Some groups ->
  exists added,
    eventGroups d1 e = Some (groups ++ added)
    /\ (added = [] \/ Props.get e HOOKS_CONFIG = Some added)
    /\ (inCatalog e = false -> added = []).
Proof.
  intros E Hg. unfold eventGroups.
  pose proof (eventGroups_mapping d e groups Hg) as M.
  pose proof (eventGroups_value d e groups Hg) as Hv.
  destruct (Props.get e HOOKS_CONFIG) as [ours|] eqn:Hc.
  - rewrite (eventValue_merge_in d d1 e ours E M Hc), Hv. simpl.
    assert (C : inCatalog e = true)
      by (unfold inCatalog, Props.has; now rewrite Hc).
    destruct (hasOurHook groups).
    + exists []. rewrite app_nil_r. repeat split; auto.
    + exists ours. repeat split; auto. congruence.
  - rewrite (eventValue_merge_out d d1 e E Hc), Hv.
    exists []. rewrite app_nil_r. repeat split; auto.
Qed.

Lemma merge_only_appends_witness :
  exists added,
    eventGroups themedStopMerged "Stop" = Some ([userGroup] ++ added)
    /\ (added = [] \/ Props.get "Stop" HOOKS_CONFIG = Some added)
    /\ (inCatalog "Stop" = false -> added = []).
Proof.
  exact (merge_only_appends (themedStop [userGroup]) themedStopMerged "Stop"
           [userGroup] eq_refl eq_refl).
Defined.

(** X6. After a merge of a document whose hooks section is a mapping (or
    missing, or falsy), every catalog event holds an array that passes the
    loose check. *)
Theorem merge_installs_every_event (d d1 : obj) (e : string) :
  merge d = Done d1 ->
  hooksIsMapping d = true ->
  inCatalog e = true ->
  exists groups, eventGroups d1 e = Some groups /\ hasOurHook groups = true.
Proof.
  intros E M C. destruct (inCatalog_get e C) as [ours Hc].
  unfold eventGroups. rewrite (eventValue_merge_in d d1 e ours E M Hc).
  eexists. split; [reflexivity|].
  apply mergedEntry_detected. now apply (catalog_detected e).
Qed.

Lemma merge_installs_every_event_witness :
  exists groups,
    eventGroups themedStopMerged "Notification" = Some groups
    /\ hasOurHook groups = true.
Proof.
  exact (merge_installs_every_event (themedStop [userGroup]) themedStopMerged
           "Notification" eq_refl eq_refl eq_refl).
Defined.

(** X7. Merge throws exactly on a document whose [hooks] is a truthy
    boolean, number or string; on every other document it completes. *)
Theorem merge_throws_iff (d : obj) :
  merge d = Throws
  <-> exists v, Props.get "hooks" d = Some v /\ truthyPrimitive v = true.
Proof.
  unfold merge, initHooks. split.
  - destruct (Props.get "hooks" d) as [h|] eqn:E.
    + destruct (truthy h) eqn:T.
      * rewrite E. destruct h; try discriminate; intros _; eexists; split;
          try reflexivity; exact T.
      * rewrite PropsFacts.get_set_same. discriminate.
    + rewrite PropsFacts.get_set_same. discriminate.
  - intros (v & Hv & T).
    assert (Tv : truthy v = true) by (destruct v; try discriminate; exact T).
    rewrite Hv, Tv, Hv. destruct v; try discriminate; reflexivity.
Qed.

(* ================================================================== *)
(** ** What prune removes, and what it leaves *)

Lemma keys_without_absent (V : Type) k (o : list (string * V)) :
  Props.get k o = None ->
  filter (fun k' => negb (String.eqb k k')) (map fst o) = map fst o.
Proof.
  intros H. rewrite <- keys_delete. now rewrite PropsFacts.delete_absent.
Qed.

(** X8. Prune touches nothing at the top level but [hooks]: the other keys
    keep their values and their order, and [hooks] either keeps its place
    or is gone. *)
Theorem prune_top_level (d : obj) :
  Props.others "hooks" (prune d) = Props.others "hooks" d
  /\ map fst (prune d)
     = (if Props.has "hooks" (prune d) then map fst d
        else filter (fun k => negb (String.eqb "hooks" k)) (map fst d)).
Proof.
  split; [apply prune_other_keys|].
  unfold prune.
  destruct (Props.get "hooks" d) as [h|] eqn:E.
  - destruct (truthy h).
    + destruct (noKeys (pruneSection h)).
      * unfold Props.has. rewrite PropsFacts.get_delete_same. apply keys_delete.
      * unfold Props.has at 1. rewrite PropsFacts.get_set_same.
        rewrite keys_set. unfold Props.has. now rewrite E.
    + unfold Props.has. now rewrite E.
  - unfold Props.has. rewrite E. symmetry. now apply keys_without_absent.
Qed.

Lemma forallb_keep_filtered groups :
  forallb keepEntry (removeOurHookEntries groups) = true.
Proof.
  apply forallb_forall. intros g Hg.
  apply filter_In in Hg. tauto.
Qed.

(** X9. Prune creates nothing and rewrites nothing: a value found at an
    event afterwards is the value that was there, or, at a catalog event
    that held an array, what the filter left of that array, which is then
    not empty. *)
Theorem prune_only_removes (d : obj) (e : string) (v : json) :
  eventValue (prune d) e = Some v ->
  exists v0,
    eventValue d e = Some v0
    /\ (v = v0
        \/ (inCatalog e = true
            /\ exists groups,
                 v0 = JArr groups
                 /\ v = JArr (removeOurHookEntries groups)
                 /\ removeOurHookEntries groups <> [])).
Proof.
  destruct (inCatalog e) eqn:C.
  - rewrite (eventValue_prune_in d e C). unfold prunedEntry.
    destruct (eventValue d e) as [v0|]; [|discriminate].
    destruct v0 as [| | | |groups|];
      try (intros H; injection H as <-; eexists; split; [reflexivity|now left]).
    rewrite length_zero_nil.
    destruct (removeOurHookEntries groups) as [|g gs] eqn:F; [discriminate|].
    intros H. injection H as <-. eexists. split; [reflexivity|].
    right. split; [reflexivity|]. exists groups. rewrite F.
    repeat split. discriminate.
  - rewrite (eventValue_prune_out d e C). intros H. eauto.
Qed.

Lemma prune_only_removes_witness :
  exists v0,
    eventValue (themedStop [userGroup; plainGroup]) "Stop" = Some v0
    /\ (JArr [userGroup] = v0
        \/ (inCatalog "Stop" = true
            /\ exists groups,
                 v0 = JArr groups
                 /\ JArr [userGroup] = JArr (removeOurHookEntries groups)
                 /\ removeOurHookEntries groups <> [])).
Proof.
  apply (prune_only_removes (themedStop [userGroup; plainGroup]) "Stop"
           (JArr [userGroup])).
  vm_compute; reflexivity.
Defined.

(** X10. After prune, an array found at a catalog event is not empty and
    holds no group the filter would remove: a second removal has nothing to
    take from it. *)
Theorem prune_leaves_nothing_removable (d : obj) (e : string) (groups : list json) :
  inCatalog e = true ->
  eventGroups (prune d) e = Some groups ->
  groups <> [] /\ forallb keepEntry groups = true.
Proof.
  intros C. unfold eventGroups. rewrite (eventValue_prune_in d e C).
  unfold prunedEntry.
  destruct (eventValue d e) as [[| | | |existing|]|]; try discriminate.
  rewrite length_zero_nil.
  destruct (removeOurHookEntries existing) as [|g gs] eqn:F; [discriminate|].
  intros H. injection H as <-. split; [discriminate|].
  rewrite <- F. apply forallb_keep_filtered.
Qed.

Lemma prune_leaves_nothing_removable_witness :
  [userGroup] <> [] /\ forallb keepEntry [userGroup] = true.
Proof.
  apply (prune_leaves_nothing_removable (themedStop [plainGroup; userGroup]) "Stop"
           [userGroup]).
  - reflexivity.
  - vm_compute; reflexivity.
Defined.

(** X11. An event name outside the catalog holds the same value before and
    after merge, before and after prune, and after both. *)
Theorem outside_catalog_untouched (d d1 : obj) (e : string) :
  inCatalog e = false ->
  merge d = Done d1 ->
  eventValue d1 e = eventValue d e
  /\ eventValue (prune d) e = eventValue d e
  /\ eventValue (prune d1) e = eventValue d e.
Proof.
  intros C E.
  assert (Hc : Props.get e HOOKS_CONFIG = None).
  { unfold inCatalog, Props.has in C.
    destruct (Props.get e HOOKS_CONFIG); [discriminate|reflexivity]. }
  pose proof (eventValue_merge_out d d1 e E Hc) as H1.
  repeat split.
  - assumption.
  - now apply eventValue_prune_out.
  - now rewrite (eventValue_prune_out d1 e C).
Qed.

Lemma outside_catalog_untouched_witness :
  exists d1,
    merge oursElsewhere = Done d1
    /\ eventValue d1 "PostToolUse" = Some (JArr [plainGroup])
    /\ eventValue (prune oursElsewhere) "PostToolUse" = Some (JArr [plainGroup])
    /\ eventValue (prune d1) "PostToolUse" = Some (JArr [plainGroup]).
Proof.
  eexists. split; [vm_compute; reflexivity|].
  refine (outside_catalog_untouched oursElsewhere _ "PostToolUse" eq_refl _).
  vm_compute; reflexivity.
Defined.

(** X12. A group with at least one action that the filter removes is a
    group the loose check detects: in any sequence containing it merge will
    not append. *)
Theorem removable_group_is_detected (groups : list json) (g : json) :
  In g groups ->
  keepEntry g = false ->
  hasNoActions g = false ->
  hasOurHook groups = true.
Proof.
  unfold keepEntry, hasNoActions. intros Hin Hk Hn.
  destruct (groupActions g) as [[|h hs]|] eqn:Ha; try discriminate.
  apply negb_false_iff in Hk. simpl in Hk.
  apply andb_true_iff in Hk. destruct Hk as [Hh _].
  apply (hasOurHook_intro groups g (h :: hs) h); simpl; auto.
Qed.

Lemma removable_group_is_detected_witness :
  hasOurHook [userGroup; plainGroup] = true.
Proof.
  apply (removable_group_is_detected [userGroup; plainGroup] plainGroup).
  - simpl; auto.
  - vm_compute; reflexivity.
  - vm_compute; reflexivity.
Defined.

(* ================================================================== *)
(** ** The presence check after setup and after removal *)

(** The check on a parsed document is the presence of some catalog event
    key in an object-valued [hooks]. *)
Lemma configured_iff_event d :
  areHooksConfigured (Parsed (JObj d)) = true
  <-> exists e, In e eventNames /\ eventValue d e <> None.
Proof.
  unfold areHooksConfigured, eventValue.
  destruct (Props.get "hooks" d) as [h|].
  - destruct h as [|b|n|s| |hooks];
      try (split; [try discriminate; destruct (truthy _); discriminate
                  |intros (e & _ & H); congruence]).
    simpl truthy. cbv iota. rewrite existsb_exists.
    split; intros (e & Hin & H); exists e; split; auto.
    + now apply PropsFacts.has_get.
    + now apply PropsFacts.has_get.
  - split; [discriminate|intros (e & _ & H); congruence].
Qed.

(** X13. After [setupHooks] on a missing file, an unreadable file, or a
    document whose [hooks] is missing, falsy or an object, the run
    completes and [areHooksConfigured] answers [true] on the file it
    wrote. *)
Theorem setup_then_configured (f : file) :
  installable f = true ->
  exists f', setupHooks f = Done f' /\ areHooksConfigured f' = true.
Proof.
  assert (G : forall d, hooksIsMapping d = true ->
                exists f', setupHooks (Parsed (JObj d)) = Done f'
                           /\ areHooksConfigured f' = true).
  { intros d M. destruct (merge_total d M) as [d1 E].
    exists (Parsed (JObj d1)). split.
    - unfold setupHooks. now rewrite E.
    - apply configured_iff_event. exists "Stop". split; [simpl; auto|].
      rewrite (eventValue_merge_in d d1 "Stop" [plainGroup] E M eq_refl).
      discriminate. }
  destruct f as [| |v]; simpl; intros I.
  - apply (G [] eq_refl).
  - apply (G [] eq_refl).
  - destruct v; try discriminate. now apply G.
Qed.

Lemma setup_then_configured_witness :
  installable Unparsable = true
  /\ exists f', setupHooks Unparsable = Done f' /\ areHooksConfigured f' = true.
Proof.
  split; [reflexivity|]. apply (setup_then_configured Unparsable). reflexivity.
Defined.

(** X14. After [removeHooks] the presence check still answers [true]
    exactly when some catalog event of the document held something the
    removal leaves: a value that is not an array, or an array from which
    the filter keeps a group. In particular removal never turns the answer
    from [false] to [true]. *)
Theorem configured_after_remove (d : obj) :
  (areHooksConfigured (removeHooks (Parsed (JObj d))) = true
   <-> exists e,
         In e eventNames
         /\ match eventValue d e with
            | Some (JArr groups) => removeOurHookEntries groups <> []
            | Some _ => True
            | None => False
            end)
  /\ (areHooksConfigured (removeHooks (Parsed (JObj d))) = true ->
      areHooksConfigured (Parsed (JObj d)) = true).
Proof.
  assert (P : forall e, In e eventNames ->
                (eventValue (prune d) e <> None
                 <-> match eventValue d e with
                     | Some (JArr groups) => removeOurHookEntries groups <> []
                     | Some _ => True
                     | None => False
                     end)).
  { intros e Hin. apply inCatalog_In in Hin.
    rewrite (eventValue_prune_in d e Hin). unfold prunedEntry.
    destruct (eventValue d e) as [[| | | |groups|]|];
      try (split; [tauto|discriminate]); try tauto.
    rewrite length_zero_nil.
    destruct (removeOurHookEntries groups); split; congruence. }
  unfold removeHooks. split.
  - rewrite configured_iff_event.
    split; intros (e & Hin & H); exists e; split; auto; now apply (P e Hin).
  - rewrite !configured_iff_event. intros (e & Hin & H).
    exists e. split; [assumption|].
    apply (P e Hin) in H. destruct (eventValue d e); [discriminate|contradiction].
Qed.

(* ================================================================== *)
(** ** The port argument *)

Lemma digit_not_white c digit rest :
  digitOf c = Some digit -> trimStart (String c rest) = String c rest.
Proof.
  destruct c as [[] [] [] [] [] [] [] []]; try discriminate; intros _;
    destruct rest as [|c2 [|c3 r3]]; reflexivity.
Qed.

Lemma digit_not_sign c digit :
  digitOf c = Some digit ->
  (N_of_ascii c =? 45)%N = false /\ (N_of_ascii c =? 43)%N = false.
Proof.
  destruct c as [[] [] [] [] [] [] [] []]; try discriminate; intros _;
    split; reflexivity.
Qed.

Lemma leadingDigits_print u junk :
  noDigitHead junk = true ->
  leadingDigits (NilEmpty.string_of_uint u ++ junk) = u.
Proof.
  intros H. induction u; simpl; try (now rewrite IHu).
  destruct junk as [|c r]; [reflexivity|]. simpl in *.
  destruct (digitOf c); [discriminate|reflexivity].
Qed.

Lemma print_head u :
  u <> Decimal.Nil ->
  exists c digit rest,
    NilEmpty.string_of_uint u = String c rest /\ digitOf c = Some digit.
Proof.
  destruct u; [congruence| | | | | | | | | | ]; intros _; simpl;
    do 3 eexists; split; reflexivity.
Qed.

Lemma parseInt10_digits u junk :
  u <> Decimal.Nil ->
  noDigitHead junk = true ->
  parseInt10 (NilEmpty.string_of_uint u ++ junk) = Some (Z.of_N (N.of_uint u)).
Proof.
  intros Hu Hj. pose proof (leadingDigits_print u junk Hj) as L.
  destruct (print_head u Hu) as (c & digit & rest & Hs & Hd).
  unfold parseInt10. rewrite Hs in *. simpl append in *.
  rewrite (digit_not_white c digit _ Hd).
  destruct (digit_not_sign c digit Hd) as [-> ->].
  rewrite L. destruct u; [congruence| | | | | | | | | | ]; reflexivity.
Qed.

Lemma to_uint_nonnil n : N.to_uint n <> Decimal.Nil.
Proof.
  destruct n as [|p]; [discriminate|]. apply DecimalPos.Unsigned.to_uint_nonnil.
Qed.

(** [parseInt] reads back what [String] prints and stops at the first
    character that is not a digit. *)
Lemma parseInt10_decimal n junk :
  noDigitHead junk = true ->
  parseInt10 (decimal n ++ junk) = Some (Z.of_N n).
Proof.
  intros Hj. unfold decimal.
  rewrite (parseInt10_digits (N.to_uint n) junk (to_uint_nonnil n) Hj).
  now rewrite DecimalN.Unsigned.of_to.
Qed.

Lemma afterFirst_found flag pre v post :
  ~ In flag pre ->
  afterFirst flag (pre ++ flag :: v :: post) = Some (Some v).
Proof.
  induction pre as [|a pre IH]; simpl; intros H.
  - now rewrite String.eqb_refl.
  - destruct (String.eqb_spec a flag) as [->|Hne]; [tauto|]. apply IH. tauto.
Qed.

(** X15. The first [--port] decides, and its value is read leniently: a
    port between 1 and 65535 written in decimal is taken, whatever follows
    its digits and whatever comes later on the command line. *)
Theorem choosePort_reads_decimal (pre post : list string) (n : N) (junk : string) :
  ~ In "--port" pre ->
  (0 < n)%N -> (n < 65536)%N ->
  noDigitHead junk = true ->
  choosePort (pre ++ "--port" :: (decimal n ++ junk)%string :: post)
  = PortOk (Z.of_N n).
Proof.
  intros Hpre Hlo Hhi Hj. unfold choosePort.
  rewrite (afterFirst_found "--port" pre _ post Hpre).
  rewrite (parseInt10_decimal n junk Hj).
  destruct (print_head (N.to_uint n) (to_uint_nonnil n)) as (c & digit & rest & Hs & _).
  unfold decimal. rewrite Hs. simpl String.eqb.
  assert (R : ((0 <? Z.of_N n) && (Z.of_N n <? 65536))%Z = true).
  { apply andb_true_iff. split; apply Z.ltb_lt; lia. }
  now rewrite R.
Qed.

Lemma choosePort_reads_decimal_witness :
  choosePort (["--verbose"] ++ "--port" :: (decimal 9000 ++ "/tcp")%string
                :: ["--port"; "1"])
  = PortOk 9000%Z.
Proof.
  apply (choosePort_reads_decimal ["--verbose"] ["--port"; "1"] 9000 "/tcp").
  - simpl. intuition discriminate.
  - reflexivity.
  - reflexivity.
  - reflexivity.
Defined.

Lemma choosePort_range args port :
  choosePort args = PortOk port -> (0 < port < 65536)%Z.
Proof.
  unfold choosePort.
  assert (D : (0 < Z.of_N DEFAULT_PORT < 65536)%Z) by (vm_compute; split; reflexivity).
  destruct (afterFirst "--port" args) as [[v|]|];
    try (intros H; injection H as <-; exact D).
  destruct (String.eqb v ""); [intros H; injection H as <-; exact D|].
  destruct (parseInt10 v) as [parsed|]; [|discriminate].
  destruct ((0 <? parsed) && (parsed <? 65536))%Z eqn:R; [|discriminate].
  intros H. injection H as <-.
  apply andb_true_iff in R. destruct R as [R1 R2].
  apply Z.ltb_lt in R1. apply Z.ltb_lt in R2. lia.
Qed.

(* ================================================================== *)
(** ** Runs of [main] *)

(** X16. Whatever the arguments, the file, and the answers, a server that
    [main] starts is started on a port between 1 and 65535. *)
Theorem served_port_in_range (args : list string) (f : file) (oc : bool)
    (answer : string) (port : Z) :
  In (StartServer port) (fst (main args f oc answer)) ->
  (0 < port < 65536)%Z.
Proof.
  unfold main.
  destruct (choosePort args) as [p|] eqn:C;
    [pose proof (choosePort_range args p C) as R|];
    destruct (setupHooks f) as [f'|];
    repeat match goal with
           | |- context [if ?b then _ else _] => destruct b
           end;
    simpl; intros H;
    repeat (destruct H as [H|H];
            [try discriminate; injection H as <-; exact R|]);
    contradiction.
Qed.

Lemma served_port_in_range_witness : (0 < 9000 < 65536)%Z.
Proof.
  apply (served_port_in_range ["--port"; "9000"] Absent true "" 9000%Z).
  vm_compute. auto.
Defined.

Ltac split_main_flags args :=
  destruct (argsInclude "--help" args), (argsInclude "-h" args),
    (argsInclude "--setup" args), (argsInclude "--remove" args),
    (argsInclude "--setup-claude" args), (argsInclude "--setup-opencode" args),
    (argsInclude "--remove-claude" args), (argsInclude "--remove-opencode" args).

(** X17. With a help flag or any of the six command flags among the
    arguments, [main] starts no server, asks nothing and never looks at the
    port: [--port] with a bad value goes unreported. *)
Theorem commands_never_serve (args : list string) (f : file) (oc : bool)
    (answer : string) :
  hasCommand args = true ->
  (forall port, ~ In (StartServer port) (fst (main args f oc answer)))
  /\ ~ In Ask (fst (main args f oc answer))
  /\ ~ In InvalidPort (fst (main args f oc answer)).
Proof.
  unfold hasCommand, main. simpl existsb.
  split_main_flags args; simpl orb; cbv iota; intros H; try discriminate;
    destruct (setupHooks f); simpl;
    repeat split; try intros port; intuition discriminate.
Qed.

Lemma commands_never_serve_witness :
  (forall port,
      ~ In (StartServer port)
          (fst (main ["--remove-claude"; "--port"; "zero"] Absent false "")))
  /\ ~ In Ask (fst (main ["--remove-claude"; "--port"; "zero"] Absent false ""))
  /\ ~ In InvalidPort
         (fst (main ["--remove-claude"; "--port"; "zero"] Absent false "")).
Proof.
  apply (commands_never_serve ["--remove-claude"; "--port"; "zero"] Absent false "").
  reflexivity.
Defined.

(** X18. The first-run question is asked exactly when no help or command
    flag is given, the port is acceptable, and neither the settings file
    nor the other tool is configured. *)
Theorem asks_iff (args : list string) (f : file) (oc : bool) (answer : string) :
  In Ask (fst (main args f oc answer))
  <-> hasCommand args = false
      /\ choosePort args <> PortInvalid
      /\ areHooksConfigured f = false
      /\ oc = false.
Proof.
  unfold hasCommand, main. simpl existsb.
  split_main_flags args; simpl orb; cbv iota;
    try (split; [destruct (setupHooks f); simpl; intuition discriminate
                |intros (H & _); discriminate]).
  destruct (choosePort args) as [port|];
    [|split; [simpl; intuition discriminate|intros (_ & H & _); congruence]].
  destruct (areHooksConfigured f), oc; simpl negb; simpl andb; cbv iota;
    try (split; [simpl; intuition discriminate
                |intros (_ & _ & H1 & H2); discriminate]).
  split; [intros _; repeat split; discriminate|intros _].
  destruct (acceptsSetup answer); [destruct (setupHooks f)|]; simpl; auto.
Qed.

(** X19. Unless the arguments ask for the Claude hooks to be set up or
    removed, a run that does not ask, or whose question is declined, leaves
    the settings file as it found it. *)
Theorem settings_left_alone (args : list string) (f : file) (oc : bool)
    (answer : string) :
  argsInclude "--setup" args = false ->
  argsInclude "--remove" args = false ->
  argsInclude "--setup-claude" args = false ->
  argsInclude "--remove-claude" args = false ->
  areHooksConfigured f = true \/ oc = true \/ acceptsSetup answer = false ->
  snd (main args f oc answer) = f.
Proof.
  intros H1 H2 H3 H4 H. unfold main. rewrite H1, H2, H3, H4.
  repeat match goal with
         | |- context [if ?b then _ else _] =>
             lazymatch b with
             | context [areHooksConfigured] => fail
             | acceptsSetup _ => fail
             | _ => destruct b
             end
         end; try reflexivity.
  destruct (choosePort args); [|reflexivity].
  destruct H as [H|[H|H]]; rewrite H; simpl.
  - reflexivity.
  - rewrite andb_false_r. reflexivity.
  - destruct (negb (areHooksConfigured f) && negb oc); reflexivity.
Qed.

Lemma settings_left_alone_witness :
  snd (main ["--port"; "9000"] (Parsed (JObj (themedStop [userGroup]))) false "no")
  = Parsed (JObj (themedStop [userGroup])).
Proof.
  apply (settings_left_alone ["--port"; "9000"]
           (Parsed (JObj (themedStop [userGroup]))) false "no");
    try reflexivity.
  left. reflexivity.
Defined.

Lemma setupHooks_configures f f' :
  installable f = true -> setupHooks f = Done f' -> areHooksConfigured f' = true.
Proof.
  assert (G : forall d, hooksIsMapping d = true ->
                setupHooks (Parsed (JObj d)) = Done f' ->
                areHooksConfigured f' = true).
  { intros d M. unfold setupHooks.
    destruct (merge d) as [d1|] eqn:E; [|discriminate].
    simpl. intros H. injection H as <-.
    apply configured_iff_event. exists "Stop". split; [simpl; auto|].
    rewrite (eventValue_merge_in d d1 "Stop" [plainGroup] E M eq_refl).
    discriminate. }
  destruct f as [| |v]; simpl installable; intros I.
  - apply (G [] eq_refl).
  - apply (G [] eq_refl).
  - destruct v; try discriminate. now apply G.
Qed.

Lemma setupHooks_total f :
  installable f = true -> exists f', setupHooks f = Done f'.
Proof.
  assert (G : forall d, hooksIsMapping d = true ->
                exists f', setupHooks (Parsed (JObj d)) = Done f').
  { intros d M. destruct (merge_total d M) as [d1 E].
    exists (Parsed (JObj d1)). unfold setupHooks. now rewrite E. }
  destruct f as [| |v]; simpl installable; intros I.
  - apply (G [] eq_refl).
  - apply (G [] eq_refl).
  - destruct v; try discriminate. now apply G.
Qed.

(** A run that asks found the settings file not configured. *)
Lemma asking_means_unconfigured args f oc answer :
  In Ask (fst (main args f oc answer)) -> areHooksConfigured f = false.
Proof.
  unfold main.
  destruct (areHooksConfigured f); [|reflexivity].
  simpl negb. simpl andb. cbv iota.
  destruct (choosePort args); destruct (setupHooks f);
    repeat match goal with
           | |- context [if ?b then _ else _] => destruct b
           end;
    simpl; intuition discriminate.
Qed.

(** X20. After a run with [--setup-claude] on a missing file, an
    unreadable file, or a document whose [hooks] is missing, falsy or an
    object, no later run asks the first-run question, whatever its
    arguments and whatever the state of the other tool. *)
Theorem no_question_after_setup (f : file) (oc oc' : bool)
    (answer answer' : string) (args' : list string) :
  installable f = true ->
  ~ In Ask (fst (main args' (snd (main ["--setup-claude"] f oc answer)) oc' answer')).
Proof.
  intros I. destruct (setupHooks_total f I) as [f' E].
  assert (S : snd (main ["--setup-claude"] f oc answer) = f').
  { unfold main. simpl argsInclude. simpl orb. cbv iota. now rewrite E. }
  rewrite S. intros H. apply asking_means_unconfigured in H.
  rewrite (setupHooks_configures f f' I E) in H. discriminate.
Qed.

Lemma no_question_after_setup_witness :
  ~ In Ask (fst (main [] (snd (main ["--setup-claude"] Absent false "")) false "")).
Proof.
  apply (no_question_after_setup Absent false false "" "" []). reflexivity.
Defined.

(* ================================================================== *)
(** ** Setup run twice *)

(** X21. Running [setupHooks] on the file a first run wrote writes that
    same file again, whatever the first run started from: no file, an
    unreadable file, or any parsed value. *)
Theorem setupHooks_idempotent (f : file) :
  andThen (setupHooks f) setupHooks = setupHooks f.
Proof.
  assert (G : forall d, andThen (setupHooks (Parsed (JObj d))) setupHooks
                        = setupHooks (Parsed (JObj d))).
  { intros d. unfold setupHooks.
    destruct (merge d) as [d1|] eqn:E; simpl; [|reflexivity].
    now rewrite (merge_again d d1 E). }
  destruct f as [| |v].
  - exact (G []).
  - exact (G []).
  - destruct v; try reflexivity. apply G.
Qed.

(* ================================================================== *)
(** ** The merge policy on a hooks section that is not a mapping *)

(** C5, as stated, fails: with [hooks] set to [true] merge throws and gives
    no result, and with [hooks] an array merge completes without the
    canonical sequence at [Stop], although neither document has an array
    there. *)
Lemma merge_policy_counterexample :
  ~ mergePolicyStated hooksTrue "Stop" /\ ~ mergePolicyStated hooksArray "Stop".
Proof.
  split; intros H; destruct (H [plainGroup] eq_refl) as (d1 & E & G).
  - vm_compute in E. discriminate.
  - vm_compute in E. injection E as <-. vm_compute in G. discriminate.
Qed.

(* ================================================================== *)
(** ** Cleaning up after the filter *)

(** Where no group of the event has an empty [hooks] array the cleanup is
    the one specified: the event is gone from the processed section when
    no non-ours group is left, and holds the non-ours groups otherwise;
    and the document loses its [hooks] key exactly when the processed
    section has no key left. *)
Lemma prune_cleanup_nonOurs (d hooks : obj) :
  Props.get "hooks" d = Some (JObj hooks) ->
  (forall e existing,
      inCatalog e = true ->
      Props.get e hooks = Some (JArr existing) ->
      existsb hasNoActions existing = false ->
      Props.get e (fold_left pruneEvent eventNames hooks)
      = match nonOurs existing with
        | [] => None
        | kept => Some (JArr kept)
        end)
  /\ Props.get "hooks" (prune d)
     = match fold_left pruneEvent eventNames hooks with
       | [] => None
       | processed => Some (JObj processed)
       end.
Proof.
  intros Hh. split.
  - intros e existing Hc He Hn.
    rewrite get_fold_prune_in; [|exact eventNames_NoDup|now apply inCatalog_In].
    rewrite He. unfold prunedEntry. rewrite length_zero_nil.
    rewrite (removeOurHookEntries_nonOurs existing Hn).
    destruct (nonOurs existing); reflexivity.
  - unfold prune. rewrite Hh. simpl truthy. cbv iota.
    unfold pruneSection, noKeys. rewrite length_zero_nil.
    destruct (fold_left pruneEvent eventNames hooks).
    + apply PropsFacts.get_delete_same.
    + apply PropsFacts.get_set_same.
Qed.

(** C8. On a document holding at [Stop] only a user's group with an empty
    [hooks] array and at [SessionStart] only our group: filtering out the
    entirely-ours groups leaves the user's group at [Stop] and nothing at
    [SessionStart], so [Stop] should keep that group and the hooks section
    should stay; prune deletes [Stop] as well, and with it the whole hooks
    key. *)
Theorem prune_cleanup_deletes_unowned_event :
  eventGroups emptyBesideOurs "Stop" = Some [emptyGroup]
  /\ nonOurs [emptyGroup] = [emptyGroup]
  /\ eventGroups emptyBesideOurs "SessionStart" = Some [plainGroup]
  /\ nonOurs [plainGroup] = []
  /\ eventValue (prune emptyBesideOurs) "Stop" = None
  /\ Props.get "hooks" (prune emptyBesideOurs) = None
  /\ prune emptyBesideOurs = [("model", JStr "opus")].
Proof. repeat split. Qed.
